(** * A shallow embedding of the assessment manager (src/app.py)

    The application is a Flask program over four SQLAlchemy models stored in
    SQLite.  The embedding keeps the program's shape:

    - every table is the list of its rows in rowid order, which is the order
      in which an unordered [SELECT] scans a rowid table;
    - a request handler is a transaction over a session that holds the
      committed database and the working copy of the open transaction;
      [commit] publishes the working copy, an exception or the end of the
      request drops it;
    - an [INTEGER PRIMARY KEY] column is a rowid alias: a fresh row gets one
      more than the largest id of its table;
    - [NOT NULL] and [UNIQUE] columns raise [IntegrityError] when violated;
      foreign keys are declared but SQLite does not enforce them unless the
      pragma is switched on, which the program never does;
    - an id of the path that does not fit SQLite's 64-bit [INTEGER] makes
      the lookup raise [OverflowError];
    - [ORDER BY] leaves rows with equal keys in the order of the table
      scan. *)

From stdpp Require Import base option list sorting strings pretty gmap.

Local Open Scope N_scope.

(** ** Models *)

Record User := mkUser {
  u_id : N;
  u_username : string;
  u_password_hash : string
}.

Record Template := mkTemplate {
  t_id : N;
  t_name : string;
  t_template_type : string;
  t_description : option string
}.

Record Question := mkQuestion {
  q_id : N;
  q_template_id : N;
  q_text : string;
  q_help_text : option string;
  q_required : bool;
  q_question_type : option string;
  q_options_json : option string
}.

Record Assessment := mkAssessment {
  a_id : N;
  a_template_id : N;
  a_name : string;
  a_vendor_name : option string;
  a_product_name : option string;
  a_created_at : N
}.

Record Answer := mkAnswer {
  ans_id : N;
  ans_assessment_id : N;
  ans_question_id : N;
  ans_answer_text : option string
}.

Record DB := mkDB {
  users : list User;
  templates : list Template;
  questions : list Question;
  assessments : list Assessment;
  answers : list Answer
}.

(** [db.create_all()] on a fresh file. *)
Definition empty_db : DB := mkDB [] [] [] [] [].

Definition set_users (l : list User) (d : DB) : DB :=
  mkDB l (templates d) (questions d) (assessments d) (answers d).
Definition set_templates (l : list Template) (d : DB) : DB :=
  mkDB (users d) l (questions d) (assessments d) (answers d).
Definition set_questions (l : list Question) (d : DB) : DB :=
  mkDB (users d) (templates d) l (assessments d) (answers d).
Definition set_assessments (l : list Assessment) (d : DB) : DB :=
  mkDB (users d) (templates d) (questions d) l (answers d).
Definition set_answers (l : list Answer) (d : DB) : DB :=
  mkDB (users d) (templates d) (questions d) (assessments d) l.

(** ** The storage layer *)

(** Largest id of a table, 0 when it is empty. *)
Definition max_id {A} (key : A → N) (rows : list A) : N :=
  foldr (λ r m, N.max (key r) m) 0 rows.

(** The rowid SQLite gives to the next inserted row. *)
Definition next_id {A} (key : A → N) (rows : list A) : N :=
  N.succ (max_id key rows).

(** [Model.query.get(k)]. *)
Definition get {A} (key : A → N) (rows : list A) (k : N) : option A :=
  List.find (λ r, key r =? k) rows.

(** [Question.query.filter_by(template_id=k).all()]. *)
Definition questions_of (d : DB) (k : N) : list Question :=
  filter (λ q, q_template_id q = k) (questions d).

(** The relationship [assessment.answers]. *)
Definition answers_of (d : DB) (k : N) : list Answer :=
  filter (λ a, ans_assessment_id a = k) (answers d).

(** [User.query.filter_by(username=name).first()]; a [None] name compiles to
    [username IS NULL], which no row of a [NOT NULL] column satisfies. *)
Definition user_by_name (d : DB) (name : option string) : option User :=
  match name with
  | Some n => List.find (λ u, String.eqb (u_username u) n) (users d)
  | None => None
  end.

(** [ORDER BY key DESC]. *)
Definition desc {A} (key : A → N) : relation A := λ x y, key y ≤ key x.

#[global] Instance desc_dec {A} (key : A → N) : RelDecision (desc key) :=
  λ x y, decide (key y ≤ key x).

(** One step of the sort behind [ORDER BY key DESC]: [x] goes in front of the
    first row whose key is not larger than its own. *)
Fixpoint insert_desc {A} (key : A → N) (x : A) (rows : list A) : list A :=
  match rows with
  | [] => [x]
  | y :: rows' =>
      if decide (key x < key y) then y :: insert_desc key x rows' else x :: rows
  end.

(** [query.order_by(key.desc()).all()]: the rows by descending key; rows
    with the same key come out in the order of the table scan. *)
Definition order_by_desc {A} (key : A → N) (rows : list A) : list A :=
  foldr (insert_desc key) [] rows.

(** ** Sessions and transactions *)

Inductive Exn := NotFound | IntegrityError | AttributeError | OverflowError.

Inductive Outcome (A : Type) :=
| Returned (a : A)
| Raised (e : Exn).
Arguments Returned {A} a.
Arguments Raised {A} e.

Record Session := mkSession {
  committed : DB;
  working : DB
}.

Definition Tx (A : Type) : Type := Session → Outcome A * Session.

#[global] Instance tx_ret : MRet Tx := λ A a σ, (Returned a, σ).

#[global] Instance tx_bind : MBind Tx := λ A B k m σ,
  match m σ with
  | (Returned a, σ') => k a σ'
  | (Raised e, σ') => (Raised e, σ')
  end.

Definition raise {A} (e : Exn) : Tx A := λ σ, (Raised e, σ).

Definition query {A} (f : DB → A) : Tx A := λ σ, (Returned (f (working σ)), σ).

Definition modify (f : DB → DB) : Tx unit := λ σ,
  (Returned (), mkSession (committed σ) (f (working σ))).

(** [db.session.commit()]. *)
Definition commit : Tx unit := λ σ,
  (Returned (), mkSession (working σ) (working σ)).

Definition begin (d : DB) : Session := mkSession d d.

Definition not_null {A} (v : option A) : Tx A :=
  match v with
  | Some a => mret a
  | None => raise IntegrityError
  end.

(** The largest value of SQLite's 64-bit [INTEGER]. *)
Definition sqlite_max : N := 2 ^ 63 - 1.

(** [Model.query.get_or_404(k)].  The path converter [<int:...>] takes any
    run of digits, and binding a [k] above [sqlite_max] to the query raises
    [OverflowError].  No stored id is above [sqlite_max], so such a [k] finds
    no row: the lookup is written first and the overflow is told apart from
    the plain miss afterwards, which is the same outcome on every database
    whose ids fit the column. *)
Definition get_or_404 {A} (table : DB → list A) (key : A → N) (k : N) : Tx A :=
  r ← query (λ d, get key (table d) k);
  match r with
  | Some a => mret a
  | None => if decide (k ≤ sqlite_max) then raise NotFound else raise OverflowError
  end.

Fixpoint for_each {A} (l : list A) (body : A → Tx unit) : Tx unit :=
  match l with
  | [] => mret ()
  | x :: l' => body x;; for_each l' body
  end.

(** *** [db.session.add]

    [add] stages an [INSERT] that the next flush performs.  The unit of work
    issues the [INSERT]s of one table in the order of the [add] calls, and no
    handler catches an exception or commits between an [add] and its flush,
    so performing the [INSERT] on the working copy at the [add] gives the
    same rows, ids and outcome.  Each function returns the id of the row. *)

Definition add_user (username password_hash : option string) : Tx N :=
  n ← not_null username;
  h ← not_null password_hash;
  d ← query id;
  match user_by_name d (Some n) with
  | Some _ => raise IntegrityError
  | None =>
      let i := next_id u_id (users d) in
      modify (set_users (users d ++ [mkUser i n h]));; mret i
  end.

Definition add_template (name template_type description : option string) : Tx N :=
  n ← not_null name;
  t ← not_null template_type;
  d ← query id;
  let i := next_id t_id (templates d) in
  modify (set_templates (templates d ++ [mkTemplate i n t description]));;
  mret i.

(** [required] is never passed, so its column default [True] is stored; the
    [INSERT] of the mapper leaves a [None] attribute out, so that a
    [question_type] of [None] is stored as the column default ["text"]. *)
Definition add_question (template_id : N) (text help_text question_type : option string)
    : Tx N :=
  x ← not_null text;
  d ← query id;
  let i := next_id q_id (questions d) in
  modify (set_questions
            (questions d ++ [mkQuestion i template_id x help_text true
                                        (Some (default "text" question_type)) None]));;
  mret i.

(** [created_at] is never passed, so its default [datetime.utcnow] is stored. *)
Definition add_assessment (now template_id : N) (name vendor_name product_name : option string)
    : Tx N :=
  n ← not_null name;
  d ← query id;
  let i := next_id a_id (assessments d) in
  modify (set_assessments
            (assessments d ++ [mkAssessment i template_id n vendor_name product_name now]));;
  mret i.

Definition add_answer (assessment_id question_id : N) (answer_text : option string) : Tx N :=
  d ← query id;
  let i := next_id ans_id (answers d) in
  modify (set_answers (answers d ++ [mkAnswer i assessment_id question_id answer_text]));;
  mret i.

(** [db.session.delete(q)]: [Question] has no relationship to [Answer], so
    only the question's row goes. *)
Definition delete_question (k : N) : Tx unit :=
  d ← query id;
  modify (set_questions (filter (λ q, q_id q ≠ k) (questions d))).

(** The [UPDATE] that the assignments of [question_edit] flush at commit. *)
Definition update_question (k : N) (text help_text question_type : option string) : Tx unit :=
  x ← not_null text;
  d ← query id;
  modify (set_questions
    ((λ q, if q_id q =? k
           then mkQuestion (q_id q) (q_template_id q) x help_text (q_required q)
                           question_type (q_options_json q)
           else q) <$> questions d)).

(** ** Requests and responses *)

Inductive Method := GET | POST.

(** A request, with what the handler reads from its surroundings while it
    runs: the user id in the session cookie, the clock, and the salt the
    password hasher draws. *)
Record Request := mkRequest {
  method : Method;
  form : list (string * string);
  session_user_id : option N;
  utcnow : N;
  salt : string
}.

(** [request.form.get(k)]: the first value submitted under [k]. *)
Definition form_get (f : list (string * string)) (k : string) : option string :=
  snd <$> List.find (λ kv, String.eqb (fst kv) k) f.

(** Python's truth value of a form field: [None] and [""] are false. *)
Definition truthy (v : option string) : bool :=
  match v with
  | Some s => negb (String.eqb s "")
  | None => false
  end.

(** [f"question_{i}"]. *)
Definition field_name (i : N) : string := "question_" +:+ pretty i.

Inductive Endpoint :=
| ep_register
| ep_login
| ep_main
| ep_template_new
| ep_template_edit (template_id : N)
| ep_assessment_new (template_id : N)
| ep_assessment_view (assessment_id : N).

Inductive View :=
| register_html
| login_html
| index_html (templates_count assessments_count : nat)
| templates_list_html (templates : list Template)
| template_edit_html (template : option Template) (questions : option (list Question))
| question_edit_html (template : Template) (question : Question)
| assessments_list_html (assessments : list Assessment)
| assessment_new_html (template : Template) (questions : list Question)
| assessment_view_html (assessment : Assessment) (answers_by_question : gmap N Answer).

Inductive Body :=
| Redirect (e : Endpoint)
| Render (v : View)
| NotFoundPage
| MethodNotAllowed
| InternalServerError.

Inductive Cookie := Unchanged | LoggedIn (user_id : N) | LoggedOut.

Record Response := mkResponse {
  flashes : list (string * string);
  cookie : Cookie;
  body : Body
}.

Definition redirect (e : Endpoint) : Response := mkResponse [] Unchanged (Redirect e).

Definition render_template (v : View) : Response := mkResponse [] Unchanged (Render v).

(** [flash(message, category)] before the response [r] is returned. *)
Definition flash (message category : string) (r : Response) : Response :=
  mkResponse ((category, message) :: flashes r) (cookie r) (body r).

(** Flask runs a view inside a request: what it commits stays, the rest of
    the session is dropped; [abort(404)] becomes the not-found page and any
    other exception the server-error page. *)
Definition serve (view : Tx Response) (d : DB) : Response * DB :=
  let '(o, σ) := view (begin d) in
  (match o with
   | Returned r => r
   | Raised NotFound => mkResponse [] Unchanged NotFoundPage
   | Raised _ => mkResponse [] Unchanged InternalServerError
   end, committed σ).

(** *** Login required *)

Definition load_user (user_id : N) : Tx (option User) :=
  query (λ d, get u_id (users d) user_id).

Definition unauthorized : Response :=
  flash "Please log in to access this page." "message" (redirect ep_login).

Definition login_required (req : Request) (view : Tx Response) : Tx Response :=
  match session_user_id req with
  | Some i =>
      u ← load_user i;
      match u with
      | Some _ => view
      | None => mret unauthorized
      end
  | None => mret unauthorized
  end.

(** ** Seeding *)

Definition dd_questions : list string :=
  [ "What is the legal name of the vendor?";
    "Describe the services the vendor will provide.";
    "Will the vendor process personal data?";
    "Will the vendor process special categories of personal data?";
    "Where will the data be stored and processed?";
    "Does the vendor have security certifications?" ].

Definition dpia_questions : list string :=
  [ "Describe the processing activity.";
    "What types of personal data are processed?";
    "Who are the data subjects?";
    "What risks exist?";
    "What safeguards are implemented?";
    "Any data transfer outside the EEA?" ].

Definition seed_default_templates : Tx unit :=
  n ← query (λ d, length (templates d));
  if decide (0 < n)%nat then mret ()
  else
    due_diligence ← add_template (Some "Third-Party Due Diligence Assessment")
                                 (Some "Due Diligence")
                                 (Some "Basic vendor due diligence questionnaire.");
    for_each dd_questions
      (λ q, add_question due_diligence (Some q) None (Some "textarea");; mret ());;
    dpia ← add_template (Some "Data Protection Impact Assessment (DPIA)")
                        (Some "DPIA")
                        (Some "High-level DPIA for internal products.");
    for_each dpia_questions
      (λ q, add_question dpia (Some q) None (Some "textarea");; mret ());;
    commit.

(** The module-level block: [db.create_all()] then the seed, at every start
    of the program. *)
Definition startup (d : DB) : DB := committed (snd (seed_default_templates (begin d))).

(** ** Template and question routes *)

Definition templates_list (req : Request) : Tx Response :=
  login_required req (
    templates ← query (λ d, order_by_desc t_id (templates d));
    mret (render_template (templates_list_html templates))).

Definition template_new (req : Request) : Tx Response :=
  login_required req (
    match method req with
    | POST =>
        let name := form_get (form req) "name" in
        let template_type := form_get (form req) "template_type" in
        let description := form_get (form req) "description" in
        if negb (truthy name) || negb (truthy template_type)
        then mret (flash "Name and type are required." "danger" (redirect ep_template_new))
        else
          t ← add_template name template_type description;
          commit;;
          mret (flash "Template created." "success" (redirect (ep_template_edit t)))
    | GET => mret (render_template (template_edit_html None None))
    end).

Definition template_edit (req : Request) (template_id : N) : Tx Response :=
  login_required req (
    template ← get_or_404 templates t_id template_id;
    match method req with
    | POST =>
        let q_text := form_get (form req) "question_text" in
        let q_help := form_get (form req) "help_text" in
        let q_type := default "text" (form_get (form req) "question_type") in
        if truthy q_text
        then
          add_question (t_id template) q_text q_help (Some q_type);;
          commit;;
          mret (flash "Question added." "success" (redirect (ep_template_edit (t_id template))))
        else mret (redirect (ep_template_edit (t_id template)))
    | GET =>
        questions ← query (λ d, questions_of d (t_id template));
        mret (render_template (template_edit_html (Some template) (Some questions)))
    end).

Definition question_delete (req : Request) (template_id question_id : N) : Tx Response :=
  login_required req (
    q ← get_or_404 questions q_id question_id;
    delete_question (q_id q);;
    commit;;
    mret (flash "Question deleted." "info" (redirect (ep_template_edit template_id)))).

Definition question_edit (req : Request) (template_id question_id : N) : Tx Response :=
  login_required req (
    template ← get_or_404 templates t_id template_id;
    question ← get_or_404 questions q_id question_id;
    match method req with
    | POST =>
        update_question (q_id question)
                        (form_get (form req) "text")
                        (form_get (form req) "help_text")
                        (form_get (form req) "question_type");;
        commit;;
        mret (flash "Question updated." "success" (redirect (ep_template_edit template_id)))
    | GET => mret (render_template (question_edit_html template question))
    end).

(** ** Assessment routes *)

Definition assessments_list (req : Request) : Tx Response :=
  login_required req (
    assessments ← query (λ d, order_by_desc a_created_at (assessments d));
    mret (render_template (assessments_list_html assessments))).

(** The body of the answer loop of [assessment_new]. *)
Definition add_answer_for (req : Request) (assessment : N) (q : Question) : Tx unit :=
  let field_name := field_name (q_id q) in
  let ans_text := form_get (form req) field_name in
  add_answer assessment (q_id q) ans_text;;
  mret ().

Definition assessment_new (req : Request) (template_id : N) : Tx Response :=
  login_required req (
    template ← get_or_404 templates t_id template_id;
    questions ← query (λ d, questions_of d (t_id template));
    match method req with
    | POST =>
        let name := form_get (form req) "assessment_name" in
        let vendor_name := form_get (form req) "vendor_name" in
        let product_name := form_get (form req) "product_name" in
        if negb (truthy name)
        then mret (flash "Assessment name is required." "danger"
                         (redirect (ep_assessment_new (t_id template))))
        else
          assessment ← add_assessment (utcnow req) (t_id template) name vendor_name product_name;
          for_each questions (add_answer_for req assessment);;
          commit;;
          mret (flash "Assessment saved." "success" (redirect (ep_assessment_view assessment)))
    | GET => mret (render_template (assessment_new_html template questions))
    end).

(** [{ans.question_id: ans for ans in answers}]. *)
Definition answers_by_question (l : list Answer) : gmap N Answer :=
  foldl (λ m ans, <[ans_question_id ans := ans]> m) ∅ l.

Definition assessment_view (req : Request) (assessment_id : N) : Tx Response :=
  login_required req (
    assessment ← get_or_404 assessments a_id assessment_id;
    answers ← query (λ d, answers_of d (a_id assessment));
    mret (render_template (assessment_view_html assessment (answers_by_question answers)))).

(** ** Main page *)

Definition main (req : Request) : Tx Response :=
  login_required req (
    templates_count ← query (λ d, length (templates d));
    assessments_count ← query (λ d, length (assessments d));
    mret (render_template (index_html templates_count assessments_count))).

Definition index (req : Request) : Tx Response :=
  login_required req (mret (redirect ep_main)).

Definition logout (req : Request) : Tx Response :=
  login_required req (mret (mkResponse [] LoggedOut (Redirect ep_login))).

(** ** Authentication routes *)

Section Auth.
(** werkzeug's password hasher, taken as given: [generate_password_hash]
    from the drawn salt and the password, [check_password_hash] from the
    stored hash and the candidate password. *)
Variable generate_password_hash : string → string → string.
Variable check_password_hash : string → string → bool.

(** [user.set_password(password)]: the hasher encodes its argument, which
    raises on [None]. *)
Definition set_password (req : Request) (password : option string) : Tx string :=
  match password with
  | Some p => mret (generate_password_hash (salt req) p)
  | None => raise AttributeError
  end.

Definition check_password (u : User) (password : option string) : Tx bool :=
  match password with
  | Some p => mret (check_password_hash (u_password_hash u) p)
  | None => raise AttributeError
  end.

Definition register (req : Request) : Tx Response :=
  match method req with
  | POST =>
      let username := form_get (form req) "username" in
      let password := form_get (form req) "password" in
      existing ← query (λ d, user_by_name d username);
      match existing with
      | Some _ => mret (flash "Username already exists" "danger" (redirect ep_register))
      | None =>
          h ← set_password req password;
          add_user username (Some h);;
          commit;;
          mret (flash "User created successfully. Please login." "success"
                      (redirect ep_login))
      end
  | GET => mret (render_template register_html)
  end.

Definition login (req : Request) : Tx Response :=
  match method req with
  | POST =>
      let username := form_get (form req) "username" in
      let password := form_get (form req) "password" in
      user ← query (λ d, user_by_name d username);
      match user with
      | Some u =>
          ok ← check_password u password;
          if ok : bool
          then mret (mkResponse [] (LoggedIn (u_id u)) (Redirect ep_main))
          else mret (flash "Invalid username or password" "danger" (redirect ep_login))
      | None => mret (flash "Invalid username or password" "danger" (redirect ep_login))
      end
  | GET => mret (render_template login_html)
  end.

(** ** The routing table *)

Inductive Route :=
| r_register
| r_login
| r_logout
| r_main
| r_index
| r_templates_list
| r_template_new
| r_template_edit (template_id : N)
| r_question_delete (template_id question_id : N)
| r_question_edit (template_id question_id : N)
| r_assessments_list
| r_assessment_new (template_id : N)
| r_assessment_view (assessment_id : N).

Definition get_only (req : Request) (view : Tx Response) : Tx Response :=
  match method req with
  | GET => view
  | POST => mret (mkResponse [] Unchanged MethodNotAllowed)
  end.

Definition post_only (req : Request) (view : Tx Response) : Tx Response :=
  match method req with
  | POST => view
  | GET => mret (mkResponse [] Unchanged MethodNotAllowed)
  end.

Definition dispatch (r : Route) (req : Request) : Tx Response :=
  match r with
  | r_register => register req
  | r_login => login req
  | r_logout => get_only req (logout req)
  | r_main => get_only req (main req)
  | r_index => get_only req (index req)
  | r_templates_list => get_only req (templates_list req)
  | r_template_new => template_new req
  | r_template_edit t => template_edit req t
  | r_question_delete t q => post_only req (question_delete req t q)
  | r_question_edit t q => question_edit req t q
  | r_assessments_list => get_only req (assessments_list req)
  | r_assessment_new t => assessment_new req t
  | r_assessment_view a => get_only req (assessment_view req a)
  end.

(** The database states the program can be in: a fresh database is
    started, and from then on requests are served and the program may be
    started again. *)
Inductive reachable : DB → Prop :=
| reach_first : reachable (startup empty_db)
| reach_serve d r req : reachable d → reachable (snd (serve (dispatch r req) d))
| reach_restart d : reachable d → reachable (startup d).
End Auth.

(** * Vocabulary of the properties *)

(** A table is in rowid order with no id taken twice. *)
Definition ascending {A} (key : A → N) (rows : list A) : Prop :=
  StronglySorted N.lt (key <$> rows).

(** The request carries the id of a stored user. *)
Definition authenticated (d : DB) (req : Request) : Prop :=
  ∃ i, session_user_id req = Some i ∧ is_Some (get u_id (users d) i).

(** A well-formed database: ids ascend in table order, every question
    belongs to a stored template and every answer to a stored assessment. *)
Record wf (d : DB) : Prop := mk_wf {
  wf_templates : ascending t_id (templates d);
  wf_questions : ascending q_id (questions d);
  wf_assessments : ascending a_id (assessments d);
  wf_question_owner : ∀ q, q ∈ questions d → is_Some (get t_id (templates d) (q_template_id q));
  wf_answer_owner : ∀ a, a ∈ answers d → is_Some (get a_id (assessments d) (ans_assessment_id a))
}.

(** The row [update_question] leaves in place of [q]. *)
Definition edited (q : Question) (text : string) (help_text question_type : option string)
    : Question :=
  mkQuestion (q_id q) (q_template_id q) text help_text (q_required q) question_type
             (q_options_json q).

(** The row a non-blank submission to the template page appends. *)
Definition added_question (d : DB) (req : Request) (t : N) (x : string) : Question :=
  mkQuestion (next_id q_id (questions d)) t x (form_get (form req) "help_text") true
             (Some (default "text" (form_get (form req) "question_type"))) None.

(** The rows the answer loop of [assessment_new] appends, the first of them
    under the id [first]. *)
Fixpoint answer_rows (first assessment : N) (f : list (string * string))
    (qs : list Question) : list Answer :=
  match qs with
  | [] => []
  | q :: qs' =>
      mkAnswer first assessment (q_id q) (form_get f (field_name (q_id q)))
        :: answer_rows (N.succ first) assessment f qs'
  end.

(** The assessment row a valid submission stores. *)
Definition added_assessment (d : DB) (req : Request) (t : N) (name : string) : Assessment :=
  mkAssessment (next_id a_id (assessments d)) t name
               (form_get (form req) "vendor_name") (form_get (form req) "product_name")
               (utcnow req).

(** The database after a valid submission to [assessment_new]. *)
Definition with_assessment (d : DB) (req : Request) (t : N) (name : string) : DB :=
  set_answers
    (answers d ++ answer_rows (next_id ans_id (answers d)) (next_id a_id (assessments d))
                              (form req) (questions_of d t))
    (set_assessments (assessments d ++ [added_assessment d req t name]) d).

Definition seeded_templates : list Template :=
  [ mkTemplate 1 "Third-Party Due Diligence Assessment" "Due Diligence"
               (Some "Basic vendor due diligence questionnaire.");
    mkTemplate 2 "Data Protection Impact Assessment (DPIA)" "DPIA"
               (Some "High-level DPIA for internal products.") ].

(** The question rows of one seeded template, the first under id [first]. *)
Fixpoint seeded_rows (first template : N) (texts : list string) : list Question :=
  match texts with
  | [] => []
  | x :: texts' =>
      mkQuestion first template x None true (Some "textarea") None
        :: seeded_rows (N.succ first) template texts'
  end.

Definition seeded_questions : list Question :=
  seeded_rows 1 1 dd_questions ++ seeded_rows 7 2 dpia_questions.

(** The user row a valid registration stores. *)
Definition added_user (generate_password_hash : string → string → string)
    (d : DB) (req : Request) (n p : string) : User :=
  mkUser (next_id u_id (users d)) n (generate_password_hash (salt req) p).

(** *** A worked example

    One user, one template with two questions, and a submission that answers
    the first question only. *)

Definition example_db : DB :=
  mkDB [mkUser 1 "alice" "pbkdf2:sha256$salt$digest"]
       [mkTemplate 1 "Vendor Check" "Due Diligence" None]
       [mkQuestion 1 1 "Data stored where?" None true (Some "text") None;
        mkQuestion 2 1 "Is the vendor certified?" None true (Some "text") None]
       [] [].

Definition example_get : Request := mkRequest GET [] (Some 1) 0 "".

Definition example_post : Request :=
  mkRequest POST [("assessment_name", "Acme Review"); ("question_1", "yes")] (Some 1) 1000 "".

(** The seeded database with one registered user. *)
Definition seeded_db : DB :=
  set_users [mkUser 1 "alice" "pbkdf2:sha256$salt$digest"] (startup empty_db).

(** The answer to a lookup by [get_or_404] that finds no row under [k]: the
    not-found page, or the server-error page when [k] does not fit the
    column. *)
Definition missing (k : N) : Response :=
  mkResponse [] Unchanged
             (if decide (k ≤ sqlite_max) then NotFoundPage else InternalServerError).

(** *** What one request can do to the database *)

(** The ways a served request can leave the database: untouched, or with
    one row appended to the users, the templates or the questions, one
    question removed or rewritten in place, or one assessment appended
    together with its answers. *)
Inductive change (d : DB) : DB → Prop :=
| ch_none : change d d
| ch_user n h :
    user_by_name d (Some n) = None →
    change d (set_users (users d ++ [mkUser (next_id u_id (users d)) n h]) d)
| ch_template n ty desc :
    n ≠ "" → ty ≠ "" →
    change d (set_templates
                (templates d ++ [mkTemplate (next_id t_id (templates d)) n ty desc]) d)
| ch_question t x h ty :
    is_Some (get t_id (templates d) t) → x ≠ "" →
    change d (set_questions
                (questions d ++ [mkQuestion (next_id q_id (questions d)) t x h true
                                            (Some ty) None]) d)
| ch_delete k :
    change d (set_questions (filter (λ q, q_id q ≠ k) (questions d)) d)
| ch_edit k x h ty :
    change d (set_questions
                ((λ q, if q_id q =? k then edited q x h ty else q) <$> questions d) d)
| ch_assessment req t name :
    is_Some (get t_id (templates d) t) → name ≠ "" →
    change d (with_assessment d req t name).

(** What every database the program reaches satisfies, beyond [wf]. *)
Record sound (d : DB) : Prop := mk_sound {
  sound_wf : wf d;
  sound_users : ascending u_id (users d);
  sound_answers : ascending ans_id (answers d);
  sound_usernames : NoDup (u_username <$> users d);
  sound_defaults : seeded_templates `prefix_of` templates d;
  sound_templates : ∀ t, t ∈ templates d → t_name t ≠ "" ∧ t_template_type t ≠ "";
  sound_assessments :
    ∀ a, a ∈ assessments d →
      a_name a ≠ ""
      ∧ is_Some (get t_id (templates d) (a_template_id a))
      ∧ NoDup (ans_question_id <$> answers_of d (a_id a))
}.

(** *** A stand-in password hasher for the examples *)

Definition example_hash (salt password : string) : string := (password +:+ "$") +:+ salt.

Definition example_check (pwhash password : string) : bool :=
  String.prefix (password +:+ "$") pwhash.

(** *** A run of the program

    The program is started on a fresh database, alice registers, and an
    assessment is filed from the first default template. *)

Definition run_register : Request :=
  mkRequest POST [("username", "alice"); ("password", "pw1")] None 0 "salt".

Definition run_login : Request :=
  mkRequest POST [("username", "alice"); ("password", "pw1")] None 0 "".

Definition run_assess : Request :=
  mkRequest POST [("assessment_name", "Acme Review"); ("question_1", "Acme Ltd")]
            (Some 1) 1000 "".

Definition run_db1 : DB :=
  snd (serve (dispatch example_hash example_check r_register run_register)
             (startup empty_db)).

Definition run_db2 : DB :=
  snd (serve (dispatch example_hash example_check (r_assessment_new 1) run_assess) run_db1).

(** *** Creation order and list order *)

(** [a] was stored after [b]: its row stands later in the table. *)
Definition created_after (d : DB) (a b : Assessment) : Prop :=
  ∃ i j : nat, assessments d !! i = Some b ∧ assessments d !! j = Some a ∧ (i < j)%nat.

(** [a] stands before [b] in the list [l]. *)
Definition precedes {A} (l : list A) (a b : A) : Prop :=
  ∃ i j : nat, l !! i = Some a ∧ l !! j = Some b ∧ (i < j)%nat.

(** The run of the program continued by a second assessment, filed while the
    clock reads an earlier time than it did for the first. *)
Definition run_assess_earlier : Request :=
  mkRequest POST [("assessment_name", "Second review")] (Some 1) 500 "".

Definition run_db3 : DB :=
  snd (serve (dispatch example_hash example_check (r_assessment_new 1) run_assess_earlier)
             run_db2).

(** * Properties *)

(** ** Keys and fresh ids *)

Section Keys.
Context {A : Type} (key : A → N).
Implicit Types (rows : list A) (r : A) (k : N).

Lemma get_Some rows k r : get key rows k = Some r → r ∈ rows ∧ key r = k.
Proof.
  unfold get. intros H. apply find_some in H as [Hin Hk].
  split; [by apply list_elem_of_In | by apply N.eqb_eq].
Qed.

Lemma get_None rows k : get key rows k = None ↔ ∀ r, r ∈ rows → key r ≠ k.
Proof.
  unfold get. split.
  - intros H r Hr Hk. apply list_elem_of_In in Hr.
    pose proof (find_none _ _ H r Hr) as Hn. cbn in Hn.
    apply N.eqb_neq in Hn. done.
  - intros H. destruct (List.find _ rows) as [r|] eqn:E; [|done].
    apply find_some in E as [Hin Hk]. apply N.eqb_eq in Hk.
    apply list_elem_of_In in Hin. by destruct (H r Hin).
Qed.

Lemma max_id_ge rows r : r ∈ rows → key r ≤ max_id key rows.
Proof.
  unfold max_id. induction 1 as [r rows|r r' rows _ IH]; cbn; lia.
Qed.

Lemma lt_next_id rows r : r ∈ rows → key r < next_id key rows.
Proof. intros H. apply max_id_ge in H. unfold next_id. lia. Qed.

Lemma max_id_app rows1 rows2 :
  max_id key (rows1 ++ rows2) = N.max (max_id key rows1) (max_id key rows2).
Proof. unfold max_id. induction rows1 as [|r rows1 IH]; cbn; [|rewrite IH]; lia. Qed.

Lemma next_id_snoc rows r :
  key r = next_id key rows → next_id key (rows ++ [r]) = N.succ (next_id key rows).
Proof.
  unfold next_id. intros H. rewrite max_id_app. unfold max_id at 2. cbn. rewrite H. unfold next_id. lia.
Qed.

Lemma get_app_None rows1 rows2 k :
  get key rows1 k = None → get key (rows1 ++ rows2) k = get key rows2 k.
Proof.
  unfold get. induction rows1 as [|r rows1 IH]; cbn; [done|].
  destruct (key r =? k); [done|auto].
Qed.

Lemma get_app_Some rows1 rows2 k r :
  get key rows1 k = Some r → get key (rows1 ++ rows2) k = Some r.
Proof.
  unfold get. induction rows1 as [|r' rows1 IH]; cbn; [done|].
  destruct (key r' =? k); [done|auto].
Qed.

Lemma get_next_id rows : get key rows (next_id key rows) = None.
Proof. apply get_None. intros r Hr%lt_next_id. lia. Qed.

Lemma get_snoc_fresh rows r :
  key r = next_id key rows → get key (rows ++ [r]) (next_id key rows) = Some r.
Proof.
  intros H. rewrite get_app_None by apply get_next_id.
  unfold get. cbn. rewrite H, N.eqb_refl. done.
Qed.

Lemma ascending_nil : ascending key [].
Proof. constructor. Qed.

Lemma ascending_snoc rows r :
  ascending key rows → key r = next_id key rows → ascending key (rows ++ [r]).
Proof.
  unfold ascending. intros Hs Hk. rewrite fmap_app. cbn.
  apply StronglySorted_app_2; [|done|repeat constructor].
  intros x y Hx Hy. apply list_elem_of_fmap in Hx as (r' & -> & Hr').
  apply list_elem_of_singleton in Hy as ->. rewrite Hk. by apply lt_next_id.
Qed.

Lemma ascending_filter (P : A → Prop) `{!∀ x, Decision (P x)} rows :
  ascending key rows → ascending key (filter P rows).
Proof.
  unfold ascending. induction rows as [|r rows IH]; [done|].
  rewrite fmap_cons. intros Hs. apply StronglySorted_inv in Hs as [Hs Hall].
  rewrite filter_cons. case_decide; [|auto].
  rewrite fmap_cons. constructor; [auto|].
  apply Forall_forall. intros x Hx.
  apply list_elem_of_fmap in Hx as (r' & -> & Hr').
  apply list_elem_of_filter in Hr' as [_ Hr'].
  rewrite Forall_forall in Hall. apply Hall.
  apply list_elem_of_fmap. eauto.
Qed.

Lemma ascending_NoDup rows : ascending key rows → NoDup (key <$> rows).
Proof.
  unfold ascending. induction 1 as [|x l Hs IH Hall]; constructor; [|done].
  intros Hx. rewrite Forall_forall in Hall. specialize (Hall x Hx). lia.
Qed.
End Keys.

#[global] Arguments get : simpl never.
#[global] Arguments next_id : simpl never.

(** ** Requests of a logged-in user *)

Lemma login_required_ok req view σ :
  authenticated (working σ) req → login_required req view σ = view σ.
Proof.
  intros (i & Hi & u & Hu). unfold login_required. rewrite Hi.
  unfold load_user, query, mbind, tx_bind. by rewrite Hu.
Qed.

(** ** Tactics *)

(** Unfolds one handler run down to the storage layer. *)
Ltac run :=
  repeat progress
    (unfold mbind, mret, tx_bind, tx_ret, get_or_404, query, modify, commit, raise,
       not_null, begin;
     cbn [working committed fst snd negb orb id]).

Ltac enter :=
  unfold serve; rewrite login_required_ok by done; run.

(** Splits a handler run on what the request and the tables hold. *)
Ltac case_step :=
  match goal with
  | |- context [match session_user_id ?r with _ => _ end] =>
      destruct (session_user_id r) eqn:?
  | |- context [match get ?k ?l ?i with _ => _ end] => destruct (get k l i) eqn:?
  | |- context [match method ?r with _ => _ end] => destruct (method r) eqn:?
  | |- context [match user_by_name ?d ?n with _ => _ end] =>
      destruct (user_by_name d n) eqn:?
  | |- context [truthy ?v] => destruct (truthy v) eqn:?
  | |- context [match form_get ?f ?k with _ => _ end] => destruct (form_get f k) eqn:?
  | |- context [decide (?k ≤ sqlite_max)] => destruct (decide (k ≤ sqlite_max))
  end.

Ltac cases :=
  unfold serve, login_required, load_user, get_only, post_only;
  repeat (run; try case_step); cbn [fst snd committed].


(** ** Well-formed databases *)

Lemma wf_empty : wf empty_db.
Proof.
  split; cbn; try apply ascending_nil; intros ? H; by apply elem_of_nil in H.
Qed.

(** ** Deleting and editing questions *)

Lemma serve_question_delete d req t k q :
  authenticated d req →
  get q_id (questions d) k = Some q →
  serve (question_delete req t k) d
  = (flash "Question deleted." "info" (redirect (ep_template_edit t)),
     set_questions (filter (λ q, q_id q ≠ k) (questions d)) d).
Proof.
  intros Hauth Hq. unfold question_delete. enter. rewrite Hq.
  unfold delete_question. run. by destruct (get_Some _ _ _ _ Hq) as [_ ->].
Qed.

Lemma serve_question_delete_404 d req t k :
  authenticated d req →
  get q_id (questions d) k = None →
  serve (question_delete req t k) d = (missing k, d).
Proof.
  intros Hauth Hq. unfold question_delete, missing. enter. rewrite Hq.
  by destruct (decide (k ≤ sqlite_max)).
Qed.

Lemma serve_question_edit_post d req t k tpl q x :
  authenticated d req →
  method req = POST →
  get t_id (templates d) t = Some tpl →
  get q_id (questions d) k = Some q →
  form_get (form req) "text" = Some x →
  serve (question_edit req t k) d
  = (flash "Question updated." "success" (redirect (ep_template_edit t)),
     set_questions
       ((λ q', if q_id q' =? k
               then edited q' x (form_get (form req) "help_text")
                            (form_get (form req) "question_type")
               else q') <$> questions d) d).
Proof.
  intros Hauth Hm Ht Hq Hx. unfold question_edit. enter.
  rewrite Ht; run. rewrite Hq, Hm; run.
  unfold update_question. run. rewrite Hx. run.
  by destruct (get_Some _ _ _ _ Hq) as [_ ->].
Qed.

Lemma serve_question_edit_no_text d req t k tpl q :
  authenticated d req →
  method req = POST →
  get t_id (templates d) t = Some tpl →
  get q_id (questions d) k = Some q →
  form_get (form req) "text" = None →
  serve (question_edit req t k) d = (mkResponse [] Unchanged InternalServerError, d).
Proof.
  intros Hauth Hm Ht Hq Hx. unfold question_edit. enter.
  rewrite Ht; run. rewrite Hq, Hm; run.
  unfold update_question. run. by rewrite Hx.
Qed.

Lemma serve_question_edit_no_template d req t k :
  authenticated d req →
  get t_id (templates d) t = None →
  serve (question_edit req t k) d = (missing t, d).
Proof.
  intros Hauth Ht. unfold question_edit, missing. enter. rewrite Ht.
  by destruct (decide (t ≤ sqlite_max)).
Qed.

Lemma serve_question_edit_404 d req t k tpl :
  authenticated d req →
  get t_id (templates d) t = Some tpl →
  get q_id (questions d) k = None →
  serve (question_edit req t k) d = (missing k, d).
Proof.
  intros Hauth Ht Hq. unfold question_edit, missing. enter. rewrite Ht; run. rewrite Hq.
  by destruct (decide (k ≤ sqlite_max)).
Qed.

Lemma get_edited (l : list Question) k q x h ty :
  get q_id l k = Some q →
  get q_id ((λ q', if q_id q' =? k then edited q' x h ty else q') <$> l) k
  = Some (edited q x h ty).
Proof.
  unfold get. induction l as [|r l IH]; cbn; [done|].
  destruct (q_id r =? k) eqn:E; cbn.
  - rewrite E. by intros [= ->].
  - rewrite E. done.
Qed.

Lemma get_edited_ne (l : list Question) k k' x h ty :
  k' ≠ k →
  get q_id ((λ q', if q_id q' =? k then edited q' x h ty else q') <$> l) k'
  = get q_id l k'.
Proof.
  intros Hne. unfold get. induction l as [|r l IH]; cbn; [done|].
  destruct (q_id r =? k) eqn:E; cbn.
  - apply N.eqb_eq in E. destruct (q_id r =? k') eqn:E'; [|done].
    apply N.eqb_eq in E'. congruence.
  - destruct (q_id r =? k'); [done|auto].
Qed.

Lemma get_filter_ne (l : list Question) k : get q_id (filter (λ q, q_id q ≠ k) l) k = None.
Proof.
  apply get_None. intros r Hr. by apply list_elem_of_filter in Hr as [? _].
Qed.

(** ** The template page *)

Lemma serve_template_edit_404 d req t :
  authenticated d req →
  get t_id (templates d) t = None →
  serve (template_edit req t) d = (missing t, d).
Proof.
  intros Hauth Ht. unfold template_edit, missing. enter. rewrite Ht.
  by destruct (decide (t ≤ sqlite_max)).
Qed.

Lemma serve_template_edit_get d req t tpl :
  authenticated d req →
  method req = GET →
  get t_id (templates d) t = Some tpl →
  serve (template_edit req t) d
  = (render_template (template_edit_html (Some tpl) (Some (questions_of d t))), d).
Proof.
  intros Hauth Hm Ht. unfold template_edit. enter. rewrite Ht, Hm. run.
  by destruct (get_Some _ _ _ _ Ht) as [_ ->].
Qed.

Lemma serve_template_edit_blank d req t tpl :
  authenticated d req →
  method req = POST →
  get t_id (templates d) t = Some tpl →
  truthy (form_get (form req) "question_text") = false →
  serve (template_edit req t) d = (redirect (ep_template_edit t), d).
Proof.
  intros Hauth Hm Ht Hx. unfold template_edit. enter. rewrite Ht, Hm, Hx. run.
  by destruct (get_Some _ _ _ _ Ht) as [_ ->].
Qed.

Lemma truthy_Some v : truthy v = true → ∃ x, v = Some x ∧ x ≠ "".
Proof.
  destruct v as [x|]; [|done]. cbn. intros H. exists x. split; [done|].
  intros ->. done.
Qed.

Lemma serve_template_edit_add d req t tpl x :
  authenticated d req →
  method req = POST →
  get t_id (templates d) t = Some tpl →
  form_get (form req) "question_text" = Some x →
  x ≠ "" →
  serve (template_edit req t) d
  = (flash "Question added." "success" (redirect (ep_template_edit t)),
     set_questions (questions d ++ [added_question d req t x]) d).
Proof.
  intros Hauth Hm Ht Hx Hne. unfold template_edit. enter. rewrite Ht, Hm, Hx. run.
  assert (truthy (Some x) = true) as ->.
  { cbn. destruct (String.eqb_spec x ""); done. }
  unfold add_question. run.
  by destruct (get_Some _ _ _ _ Ht) as [_ ->].
Qed.

(** ** Creating and viewing assessments *)

Lemma for_each_add_answer qs i req σ :
  for_each qs (add_answer_for req i) σ
  = (Returned (),
     mkSession (committed σ)
       (set_answers (answers (working σ)
                       ++ answer_rows (next_id ans_id (answers (working σ))) i (form req) qs)
                    (working σ))).
Proof.
  revert σ. induction qs as [|q qs IH]; intros [c w]; cbn [for_each answer_rows].
  - run. rewrite app_nil_r. by destruct w.
  - run. unfold add_answer_for at 1, add_answer. run. rewrite IH. run.
    unfold set_answers at 1 2 3; cbn [answers users templates questions assessments].
    rewrite next_id_snoc by done. rewrite <- app_assoc. done.
Qed.

Lemma answer_rows_fields first i f qs :
  (λ a, (ans_assessment_id a, ans_question_id a, ans_answer_text a))
    <$> answer_rows first i f qs
  = (λ q, (i, q_id q, form_get f (field_name (q_id q)))) <$> qs.
Proof.
  revert first. induction qs as [|q qs IH]; intros first; cbn; [done|].
  by rewrite IH.
Qed.

Lemma answer_rows_assessment first i f qs a :
  a ∈ answer_rows first i f qs → ans_assessment_id a = i.
Proof.
  revert first. induction qs as [|q qs IH]; intros first; cbn.
  - by intros ?%elem_of_nil.
  - intros [->|?]%elem_of_cons; [done|eauto].
Qed.

Lemma answer_rows_questions first i f qs :
  ans_question_id <$> answer_rows first i f qs = q_id <$> qs.
Proof.
  revert first. induction qs as [|q qs IH]; intros first; cbn; [done|].
  by rewrite IH.
Qed.

Lemma serve_assessment_new_404 d req t :
  authenticated d req →
  get t_id (templates d) t = None →
  serve (assessment_new req t) d = (missing t, d).
Proof.
  intros Hauth Ht. unfold assessment_new, missing. enter. rewrite Ht.
  by destruct (decide (t ≤ sqlite_max)).
Qed.

Lemma serve_assessment_new_get d req t tpl :
  authenticated d req →
  method req = GET →
  get t_id (templates d) t = Some tpl →
  serve (assessment_new req t) d
  = (render_template (assessment_new_html tpl (questions_of d t)), d).
Proof.
  intros Hauth Hm Ht. unfold assessment_new. enter. rewrite Ht, Hm. run.
  by destruct (get_Some _ _ _ _ Ht) as [_ ->].
Qed.

Lemma serve_assessment_new_blank d req t tpl :
  authenticated d req →
  method req = POST →
  get t_id (templates d) t = Some tpl →
  truthy (form_get (form req) "assessment_name") = false →
  serve (assessment_new req t) d
  = (flash "Assessment name is required." "danger" (redirect (ep_assessment_new t)), d).
Proof.
  intros Hauth Hm Ht Hx. unfold assessment_new. enter. rewrite Ht, Hm, Hx. run.
  by destruct (get_Some _ _ _ _ Ht) as [_ ->].
Qed.

Lemma serve_assessment_new_post d req t tpl name :
  authenticated d req →
  method req = POST →
  get t_id (templates d) t = Some tpl →
  form_get (form req) "assessment_name" = Some name →
  name ≠ "" →
  serve (assessment_new req t) d
  = (flash "Assessment saved." "success"
           (redirect (ep_assessment_view (next_id a_id (assessments d)))),
     with_assessment d req t name).
Proof.
  intros Hauth Hm Ht Hx Hne. unfold assessment_new. enter. rewrite Ht, Hm, Hx. run.
  assert (truthy (Some name) = true) as ->.
  { cbn. destruct (String.eqb_spec name ""); done. }
  unfold add_assessment. run. rewrite for_each_add_answer. run.
  by destruct (get_Some _ _ _ _ Ht) as [_ ->].
Qed.

Section Filters.
Context {A : Type} (P : A → Prop) `{!∀ x, Decision (P x)}.

Lemma filter_all (l : list A) : (∀ x, x ∈ l → P x) → filter P l = l.
Proof.
  induction l as [|x l IH]; intros HP; [done|].
  rewrite filter_cons_True by (apply HP; left).
  f_equal. apply IH. intros y Hy. apply HP. by right.
Qed.

Lemma filter_none (l : list A) : (∀ x, x ∈ l → ¬ P x) → filter P l = [].
Proof.
  induction l as [|x l IH]; intros HP; [done|].
  rewrite filter_cons_False by (apply HP; left).
  apply IH. intros y Hy. apply HP. by right.
Qed.
End Filters.

(** The answers of the assessment a valid submission creates are the rows of
    its answer loop and no others. *)
Lemma answers_of_with_assessment d req t name :
  wf d →
  answers_of (with_assessment d req t name) (next_id a_id (assessments d))
  = answer_rows (next_id ans_id (answers d)) (next_id a_id (assessments d)) (form req)
                (questions_of d t).
Proof.
  intros Hwf. unfold answers_of, with_assessment. cbn. rewrite filter_app.
  rewrite filter_none, filter_all; [done| |].
  - intros a Ha. by apply answer_rows_assessment in Ha.
  - intros a Ha Hid. destruct (wf_answer_owner d Hwf a Ha) as [s Hs].
    rewrite Hid, get_next_id in Hs. done.
Qed.

Lemma answers_of_old_with_assessment d req t name k :
  k ≠ next_id a_id (assessments d) →
  answers_of (with_assessment d req t name) k = answers_of d k.
Proof.
  intros Hk. unfold answers_of, with_assessment. cbn. rewrite filter_app.
  rewrite (filter_none _ (answer_rows _ _ _ _)), app_nil_r; [done|].
  intros a Ha Hid. apply answer_rows_assessment in Ha. congruence.
Qed.

(** *** The dictionary of the assessment page *)

Lemma answers_by_question_from_notin (l : list Answer) (m : gmap N Answer) k :
  k ∉ ans_question_id <$> l →
  foldl (λ m ans, <[ans_question_id ans := ans]> m) m l !! k = m !! k.
Proof.
  revert m. induction l as [|a l IH]; intros m Hk; cbn; [done|].
  rewrite fmap_cons in Hk. apply not_elem_of_cons in Hk as [Hne Hk].
  rewrite IH by done. by rewrite lookup_insert_ne.
Qed.

Lemma answers_by_question_from_lookup (l : list Answer) (m : gmap N Answer) a :
  NoDup (ans_question_id <$> l) →
  a ∈ l →
  foldl (λ m ans, <[ans_question_id ans := ans]> m) m l !! ans_question_id a = Some a.
Proof.
  revert m. induction l as [|x l IH]; intros m Hnd Ha; [by apply elem_of_nil in Ha|].
  rewrite fmap_cons in Hnd. apply NoDup_cons in Hnd as [Hx Hnd]. cbn.
  apply elem_of_cons in Ha as [->|Ha]; [|by apply IH].
  rewrite answers_by_question_from_notin by done. by rewrite lookup_insert_eq.
Qed.

Lemma answers_by_question_lookup (l : list Answer) a :
  NoDup (ans_question_id <$> l) →
  a ∈ l →
  answers_by_question l !! ans_question_id a = Some a.
Proof. apply answers_by_question_from_lookup. Qed.

Lemma answers_by_question_from_dom (l : list Answer) (m : gmap N Answer) :
  dom (foldl (λ m ans, <[ans_question_id ans := ans]> m) m l)
  = list_to_set (ans_question_id <$> l) ∪ dom m.
Proof.
  revert m. induction l as [|x l IH]; intros m.
  - cbn. by rewrite (left_id_L ∅ (∪)).
  - cbn [foldl]. rewrite IH, dom_insert_L, fmap_cons, list_to_set_cons.
    rewrite (comm_L (∪) {[ans_question_id x]} (list_to_set _)).
    by rewrite (assoc_L (∪)).
Qed.

Lemma answers_by_question_size (l : list Answer) :
  NoDup (ans_question_id <$> l) → size (answers_by_question l) = length l.
Proof.
  intros Hnd. rewrite <- size_dom. unfold answers_by_question.
  rewrite answers_by_question_from_dom, dom_empty_L, (right_id_L ∅ (∪)).
  rewrite size_list_to_set by done. by rewrite length_fmap.
Qed.

Lemma serve_assessment_view d req k a :
  authenticated d req →
  get a_id (assessments d) k = Some a →
  serve (assessment_view req k) d
  = (render_template (assessment_view_html a (answers_by_question (answers_of d k))), d).
Proof.
  intros Hauth Ha. unfold assessment_view. enter. rewrite Ha. run.
  by destruct (get_Some _ _ _ _ Ha) as [_ ->].
Qed.

Lemma serve_assessment_view_404 d req k :
  authenticated d req →
  get a_id (assessments d) k = None →
  serve (assessment_view req k) d = (missing k, d).
Proof.
  intros Hauth Ha. unfold assessment_view, missing. enter. rewrite Ha.
  by destruct (decide (k ≤ sqlite_max)).
Qed.

Lemma missing_in_range k :
  k ≤ sqlite_max → missing k = mkResponse [] Unchanged NotFoundPage.
Proof. intros Hk. unfold missing. by destruct (decide (k ≤ sqlite_max)). Qed.

Lemma missing_overflow k :
  sqlite_max < k → missing k = mkResponse [] Unchanged InternalServerError.
Proof. intros Hk. unfold missing. destruct (decide (k ≤ sqlite_max)); [lia|done]. Qed.

(** *** The list of assessments *)

#[global] Instance desc_trans {A} (key : A → N) : Transitive (desc key).
Proof. unfold desc. intros x y z ??. lia. Qed.

#[global] Instance desc_total {A} (key : A → N) : Total (desc key).
Proof. unfold desc. intros x y. lia. Qed.

Lemma insert_desc_perm {A} (key : A → N) x rows : insert_desc key x rows ≡ₚ x :: rows.
Proof.
  induction rows as [|y rows IH]; cbn; [done|].
  case_decide; [|done]. by rewrite IH, Permutation_swap.
Qed.

Lemma insert_desc_sorted {A} (key : A → N) x rows :
  StronglySorted (desc key) rows → StronglySorted (desc key) (insert_desc key x rows).
Proof.
  induction 1 as [|y rows Hs IH Hall]; cbn; [repeat constructor|].
  case_decide as Hlt.
  - constructor; [done|]. rewrite insert_desc_perm.
    constructor; [unfold desc; lia|done].
  - constructor; [by constructor|].
    constructor; [unfold desc; lia|].
    eapply Forall_impl; [exact Hall|]. unfold desc. intros z Hz. lia.
Qed.

Lemma order_by_desc_sorted {A} (key : A → N) rows :
  StronglySorted (desc key) (order_by_desc key rows).
Proof.
  induction rows as [|x rows IH]; cbn; [constructor|]. by apply insert_desc_sorted.
Qed.

Lemma order_by_desc_perm {A} (key : A → N) rows : order_by_desc key rows ≡ₚ rows.
Proof.
  induction rows as [|x rows IH]; cbn; [done|]. by rewrite insert_desc_perm, IH.
Qed.

Lemma insert_desc_same_key {A} (key : A → N) c x rows :
  filter (λ r, key r = c) (insert_desc key x rows) = filter (λ r, key r = c) (x :: rows).
Proof.
  induction rows as [|y rows IH]; cbn; [done|].
  case_decide as Hlt; [|done].
  rewrite (filter_cons _ y), IH, !filter_cons.
  repeat case_decide; try done; lia.
Qed.

(** Rows that share a key keep the order of the table. *)
Lemma order_by_desc_same_key {A} (key : A → N) c rows :
  filter (λ r, key r = c) (order_by_desc key rows) = filter (λ r, key r = c) rows.
Proof.
  unfold order_by_desc. induction rows as [|x rows IH]; cbn [foldr]; [done|].
  by rewrite insert_desc_same_key, !filter_cons, IH.
Qed.

Lemma strongly_sorted_lookup {A} (R : relation A) (l : list A) (i j : nat) x y :
  StronglySorted R l → l !! i = Some x → l !! j = Some y → (i < j)%nat → R x y.
Proof.
  intros Hs. revert i j. induction Hs as [|z l Hs IH Hall]; intros i j Hi Hj Hlt.
  - done.
  - destruct j as [|j]; [lia|]. cbn in Hj. destruct i as [|i]; cbn in Hi.
    + injection Hi as ->. rewrite Forall_forall in Hall.
      apply Hall. by eapply list_elem_of_lookup_2.
    + apply (IH i j); [done|done|lia].
Qed.

Lemma order_by_desc_before {A} (key : A → N) rows (i j : nat) x y :
  order_by_desc key rows !! i = Some x →
  order_by_desc key rows !! j = Some y →
  key y < key x →
  (i < j)%nat.
Proof.
  intros Hi Hj Hlt. destruct (decide (i < j)%nat) as [|Hge]; [done|].
  exfalso. destruct (decide (i = j)) as [->|Hne].
  - rewrite Hi in Hj. injection Hj as ->. lia.
  - assert (desc key y x) as Hd.
    { eapply (strongly_sorted_lookup _ _ j i);
        [apply order_by_desc_sorted|done|done|lia]. }
    unfold desc in Hd. lia.
Qed.

Lemma serve_assessments_list d req :
  authenticated d req →
  serve (assessments_list req) d
  = (render_template (assessments_list_html (order_by_desc a_created_at (assessments d))), d).
Proof. intros Hauth. unfold assessments_list. enter. done. Qed.

(** ** Seeding *)

Lemma startup_nonempty d : templates d ≠ [] → startup d = d.
Proof.
  intros Hne. unfold startup, seed_default_templates. run.
  destruct (templates d) as [|t ts]; [done|]. cbn [length].
  destruct (decide (0 < S (length ts))%nat); [done|lia].
Qed.

Lemma startup_empty d :
  templates d = [] →
  questions d = [] →
  startup d = set_questions seeded_questions (set_templates seeded_templates d).
Proof.
  destruct d as [us ts qs ass ans]. cbn. intros -> ->. reflexivity.
Qed.

Lemma wf_no_templates d : wf d → templates d = [] → questions d = [].
Proof.
  intros Hwf Ht. destruct (questions d) as [|q qs] eqn:E; [done|].
  destruct (wf_question_owner d Hwf q) as [t Hq]; [rewrite E; left|].
  rewrite Ht in Hq. done.
Qed.

(** ** The invariant is kept *)

Lemma wf_set_users d l : wf d → wf (set_users l d).
Proof. intros [? ? ? ? ?]. by split. Qed.

Lemma wf_add_template d n ty desc :
  wf d →
  wf (set_templates (templates d ++ [mkTemplate (next_id t_id (templates d)) n ty desc]) d).
Proof.
  intros [Ht Hq Ha Hqo Hao]. split; cbn; try done.
  - by apply ascending_snoc.
  - intros q Hin. destruct (Hqo q Hin) as [t Hget].
    exists t. by apply get_app_Some.
Qed.

Lemma wf_add_question d q :
  wf d →
  q_id q = next_id q_id (questions d) →
  is_Some (get t_id (templates d) (q_template_id q)) →
  wf (set_questions (questions d ++ [q]) d).
Proof.
  intros [Ht Hq Ha Hqo Hao] Hid Hown. split; cbn; try done.
  - by apply ascending_snoc.
  - intros q' [Hin|Hin%list_elem_of_singleton]%elem_of_app; [auto|by subst].
Qed.

Lemma wf_delete_question d k :
  wf d → wf (set_questions (filter (λ q, q_id q ≠ k) (questions d)) d).
Proof.
  intros [Ht Hq Ha Hqo Hao]. split; cbn; try done.
  - by apply ascending_filter.
  - intros q [_ Hin]%list_elem_of_filter. auto.
Qed.

Lemma wf_update_question d k x h ty :
  wf d →
  wf (set_questions
        ((λ q, if q_id q =? k then edited q x h ty else q) <$> questions d) d).
Proof.
  intros [Ht Hq Ha Hqo Hao]. split; cbn; try done.
  - unfold ascending in *. rewrite <- list_fmap_compose.
    erewrite list_fmap_ext; [exact Hq|].
    intros i q _. cbn. by destruct (q_id q =? k).
  - intros q' (q & -> & Hin)%list_elem_of_fmap.
    destruct (q_id q =? k); cbn; auto.
Qed.

Lemma wf_with_assessment d req t name : wf d → wf (with_assessment d req t name).
Proof.
  intros [Ht Hq Ha Hqo Hao]. split; cbn; try done.
  - by apply ascending_snoc.
  - intros a [Hin|Hin]%elem_of_app.
    + destruct (Hao a Hin) as [s Hs]. exists s. by apply get_app_Some.
    + apply answer_rows_assessment in Hin. rewrite Hin.
      eexists. by apply get_snoc_fresh.
Qed.

Lemma wf_seeded d :
  wf d → templates d = [] →
  wf (set_questions seeded_questions (set_templates seeded_templates d)).
Proof.
  intros Hwf Ht. pose proof (wf_no_templates d Hwf Ht) as Hq.
  destruct Hwf as [_ _ Ha _ Hao]. split; cbn; try done.
  - unfold ascending. cbn. repeat constructor; lia.
  - unfold ascending. cbn. repeat constructor; lia.
  - intros q Hin. unfold seeded_questions in Hin. cbn in Hin.
    repeat (apply elem_of_cons in Hin as [->|Hin]; [by eexists|]).
    by apply elem_of_nil in Hin.
Qed.

Lemma wf_startup d : wf d → wf (startup d).
Proof.
  intros Hwf. destruct (templates d) as [|t ts] eqn:Ht.
  - rewrite startup_empty by eauto using wf_no_templates. by apply wf_seeded.
  - rewrite startup_nonempty; [done|]. by rewrite Ht.
Qed.

(** ** Registration and login *)

Section AuthFacts.
Variable generate_password_hash : string → string → string.
Variable check_password_hash : string → string → bool.

Abbreviation register_view := (register generate_password_hash).
Abbreviation login_view := (login check_password_hash).
Abbreviation route := (dispatch generate_password_hash check_password_hash).

Lemma serve_register_ok d req n p :
  method req = POST →
  form_get (form req) "username" = Some n →
  form_get (form req) "password" = Some p →
  user_by_name d (Some n) = None →
  serve (register_view req) d
  = (flash "User created successfully. Please login." "success" (redirect ep_login),
     set_users (users d ++ [added_user generate_password_hash d req n p]) d).
Proof.
  intros Hm Hn Hp Hfree. unfold register, serve. rewrite Hm, Hn, Hp. run.
  rewrite Hfree. unfold set_password, add_user. run. by rewrite Hfree.
Qed.

Lemma serve_register_conflict d req u :
  method req = POST →
  user_by_name d (form_get (form req) "username") = Some u →
  serve (register_view req) d
  = (flash "Username already exists" "danger" (redirect ep_register), d).
Proof.
  intros Hm Hu. unfold register, serve. rewrite Hm. run. by rewrite Hu.
Qed.

Lemma serve_register_no_username d req :
  method req = POST →
  form_get (form req) "username" = None →
  serve (register_view req) d = (mkResponse [] Unchanged InternalServerError, d).
Proof.
  intros Hm Hn. unfold register, serve. rewrite Hm, Hn. run. cbn [user_by_name].
  unfold set_password, add_user.
  destruct (form_get (form req) "password"); run; done.
Qed.

Lemma serve_register_no_password d req :
  method req = POST →
  user_by_name d (form_get (form req) "username") = None →
  form_get (form req) "password" = None →
  serve (register_view req) d = (mkResponse [] Unchanged InternalServerError, d).
Proof.
  intros Hm Hn Hp. unfold register, serve. rewrite Hm, Hp. run. rewrite Hn.
  unfold set_password. run. done.
Qed.

Lemma serve_login_ok d req u p :
  method req = POST →
  user_by_name d (form_get (form req) "username") = Some u →
  form_get (form req) "password" = Some p →
  check_password_hash (u_password_hash u) p = true →
  serve (login_view req) d = (mkResponse [] (LoggedIn (u_id u)) (Redirect ep_main), d).
Proof.
  intros Hm Hu Hp Hok. unfold login, serve. rewrite Hm, Hp. run. rewrite Hu.
  unfold check_password. run. by rewrite Hok.
Qed.

Lemma user_by_name_snoc d u l :
  user_by_name d (Some (u_username u)) = None →
  users d = l →
  List.find (λ u', String.eqb (u_username u') (u_username u)) (l ++ [u]) = Some u.
Proof.
  cbn. intros Hfree <-. induction (users d) as [|x xs IH]; cbn in *.
  - by rewrite String.eqb_refl.
  - destruct (String.eqb (u_username x) (u_username u)); [done|auto].
Qed.

(** *** The invariant along every run *)

Lemma serve_wf r req d : wf d → wf (snd (serve (route r req) d)).
Proof.
  intros Hwf. destruct r; cbn [dispatch].
  - unfold register, set_password, add_user. cases; try done.
    by apply wf_set_users.
  - unfold login, check_password. cases; try done.
    destruct (check_password_hash _ _); done.
  - unfold logout. cases; done.
  - unfold main. cases; done.
  - unfold index. cases; done.
  - unfold templates_list. cases; done.
  - unfold template_new, add_template. cases; try done.
    by apply wf_add_template.
  - unfold template_edit, add_question. cases; try done.
    apply wf_add_question; [done|done|]. cbn.
    match goal with H : get t_id _ _ = Some ?t |- _ =>
      destruct (get_Some _ _ _ _ H) as [_ ->]; by rewrite H end.
  - unfold question_delete, delete_question. cases; try done.
    by apply wf_delete_question.
  - unfold question_edit, update_question. cases; try done.
    by apply wf_update_question.
  - unfold assessments_list. cases; done.
  - unfold assessment_new, add_assessment. cases; try done.
    rewrite for_each_add_answer. run. cbn [snd committed].
    match goal with
    | H : get t_id _ _ = Some ?t, E : form_get _ "assessment_name" = Some ?s |- _ =>
        exact (wf_with_assessment d req (t_id t) s Hwf)
    end.
  - unfold assessment_view. cases; done.
Qed.

(** X5.  Every database the program reaches is well formed: ids ascend in
    table order in the templates, the questions and the assessments, every
    question belongs to a stored template, and every answer to a stored
    assessment. *)
Theorem reachable_wf d :
  reachable generate_password_hash check_password_hash d → wf d.
Proof.
  induction 1 as [|d r req _ IH|d _ IH].
  - apply wf_startup, wf_empty.
  - by apply serve_wf.
  - by apply wf_startup.
Qed.
End AuthFacts.

Lemma wf_example_db : wf example_db.
Proof.
  split; unfold ascending; cbn.
  - repeat constructor.
  - repeat constructor.
  - constructor.
  - intros q Hin. repeat (apply elem_of_cons in Hin as [->|Hin]; [by eexists|]).
    by apply elem_of_nil in Hin.
  - intros a Hin. by apply elem_of_nil in Hin.
Qed.

Lemma example_authenticated m f now s :
  authenticated example_db (mkRequest m f (Some 1) now s).
Proof. exists 1. split; [done|]. by eexists. Qed.

(** ** Creating an assessment *)

Lemma answer_rows_elem first i f qs q :
  q ∈ qs →
  ∃ a, a ∈ answer_rows first i f qs ∧ ans_question_id a = q_id q
       ∧ ans_answer_text a = form_get f (field_name (q_id q)).
Proof.
  revert first. induction qs as [|q' qs IH]; intros first Hin.
  - by apply elem_of_nil in Hin.
  - cbn. apply elem_of_cons in Hin as [->|Hin].
    + eexists. split; [left|done].
    + destruct (IH (N.succ first) Hin) as (a & Ha & ?). exists a. split; [by right|done].
Qed.

Lemma questions_of_NoDup d t : wf d → NoDup (q_id <$> questions_of d t).
Proof.
  intros Hwf. apply ascending_NoDup. apply ascending_filter, Hwf.
Qed.

(** C1.  A valid submission to [assessment_new] for an existing template
    stores exactly one answer per question the template has at that moment,
    in the order of the questions, each holding what the form submitted
    under that question's field and nothing ([None]) when the form has no
    such field; [assessment_view] of the new assessment then shows a
    dictionary with one entry per question, keyed by question id. *)
Theorem assessment_new_creates_answers d req view_req t tpl name :
  wf d →
  authenticated d req →
  session_user_id view_req = session_user_id req →
  method req = POST →
  get t_id (templates d) t = Some tpl →
  form_get (form req) "assessment_name" = Some name →
  name ≠ "" →
  let i := next_id a_id (assessments d) in
  let r := serve (assessment_new req t) d in
  let d' := snd r in
  body (fst r) = Redirect (ep_assessment_view i)
  ∧ (λ a, (ans_assessment_id a, ans_question_id a, ans_answer_text a)) <$> answers_of d' i
    = (λ q, (i, q_id q, form_get (form req) (field_name (q_id q)))) <$> questions_of d t
  ∧ ∃ a m,
      serve (assessment_view view_req i) d' = (render_template (assessment_view_html a m), d')
      ∧ a_id a = i ∧ a_template_id a = t ∧ a_name a = name
      ∧ size m = length (questions_of d t)
      ∧ ∀ q, q ∈ questions_of d t →
          ∃ ans, m !! q_id q = Some ans
                 ∧ ans ∈ answers_of d' i
                 ∧ ans_question_id ans = q_id q
                 ∧ ans_answer_text ans = form_get (form req) (field_name (q_id q)).
Proof.
  intros Hwf Hauth Hsess Hm Ht Hname Hne i r d'. subst r d'.
  rewrite (serve_assessment_new_post d req t tpl name) by done. cbn [fst snd].
  pose proof (answers_of_with_assessment d req t name Hwf) as Hrows. fold i in Hrows.
  assert (NoDup (ans_question_id <$> answers_of (with_assessment d req t name) i)) as Hnd.
  { rewrite Hrows, answer_rows_questions. by apply questions_of_NoDup. }
  split; [done|]. split.
  { rewrite Hrows. apply answer_rows_fields. }
  exists (added_assessment d req t name),
         (answers_by_question (answers_of (with_assessment d req t name) i)).
  split; [|split; [done|split; [done|split; [done|split]]]].
  - apply serve_assessment_view.
    + destruct Hauth as (u & Hu & Hget). exists u. by rewrite Hsess.
    + apply get_snoc_fresh. done.
  - rewrite answers_by_question_size by done.
    by rewrite Hrows, <- (length_fmap ans_question_id), answer_rows_questions, length_fmap.
  - intros q Hq.
    destruct (answer_rows_elem (next_id ans_id (answers d)) i (form req) _ q Hq)
      as (ans & Hin & Hqid & Htext).
    rewrite <- Hrows in Hin. exists ans.
    split; [rewrite <- Hqid; by apply answers_by_question_lookup|done].
Qed.

Lemma assessment_new_creates_answers_witness :
  let d' := snd (serve (assessment_new example_post 1) example_db) in
  wf example_db
  ∧ (λ a, (ans_assessment_id a, ans_question_id a, ans_answer_text a)) <$> answers_of d' 1
    = [(1, 1, Some "yes"); (1, 2, None)]
  ∧ ∃ a m,
      body (fst (serve (assessment_view example_get 1) d'))
      = Render (assessment_view_html a m)
      ∧ size m = 2%nat
      ∧ ans_answer_text <$> m !! 1 = Some (Some "yes")
      ∧ ans_answer_text <$> m !! 2 = Some None.
Proof.
  destruct (assessment_new_creates_answers example_db example_post example_get 1
              (mkTemplate 1 "Vendor Check" "Due Diligence" None) "Acme Review"
              wf_example_db (example_authenticated _ _ _ _)
              eq_refl eq_refl eq_refl eq_refl ltac:(discriminate))
    as (_ & Hrows & a & m & Hview & _ & _ & _ & Hsize & Hlookup).
  split; [exact wf_example_db|]. split.
  - exact Hrows.
  - exists a, m. split; [exact (f_equal (λ x, body (fst x)) Hview)|].
    split; [exact Hsize|].
    destruct (Hlookup (mkQuestion 1 1 "Data stored where?" None true (Some "text") None))
      as (a1 & H1 & _ & _ & T1); [left|].
    destruct (Hlookup (mkQuestion 2 1 "Is the vendor certified?" None true (Some "text") None))
      as (a2 & H2 & _ & _ & T2); [right; left|].
    cbn [q_id] in H1, H2, T1, T2. rewrite H1, H2. cbn [fmap option_fmap option_map].
    by rewrite T1, T2.
Defined.

Lemma answer_rows_pairs first i f qs :
  (λ x, (ans_assessment_id x, ans_question_id x)) <$> answer_rows first i f qs
  = (λ q, (i, q_id q)) <$> qs.
Proof.
  revert first. induction qs as [|q qs IH]; intros first; cbn; [done|].
  by rewrite IH.
Qed.

(** C2.  [assessment_new] answers a request for a template that does not
    exist with the not-found page when the id of the path fits the id
    column, and with the server-error page when it does not (the lookup
    raises [OverflowError]); it answers a submission whose name is blank
    with the notice "Assessment name is required." and a redirect back to
    the form.  All of these leave the database as it was.  Every run, whoever
    sends it, either leaves the database as it was or adds one assessment
    together with one answer per question of the template: a run that does
    not end in the redirect to the new assessment changes nothing. *)
Theorem assessment_new_all_or_nothing d req t :
  let r := serve (assessment_new req t) d in
  (authenticated d req → get t_id (templates d) t = None → t ≤ sqlite_max →
   r = (mkResponse [] Unchanged NotFoundPage, d))
  ∧ (authenticated d req → get t_id (templates d) t = None → sqlite_max < t →
     r = (mkResponse [] Unchanged InternalServerError, d))
  ∧ (authenticated d req → is_Some (get t_id (templates d) t) → method req = POST →
     truthy (form_get (form req) "assessment_name") = false →
     r = (flash "Assessment name is required." "danger" (redirect (ep_assessment_new t)), d))
  ∧ (snd r = d
     ∨ ∃ a rows,
         body (fst r) = Redirect (ep_assessment_view (a_id a))
         ∧ a_id a = next_id a_id (assessments d)
         ∧ assessments (snd r) = assessments d ++ [a]
         ∧ answers (snd r) = answers d ++ rows
         ∧ (λ x, (ans_assessment_id x, ans_question_id x)) <$> rows
           = (λ q, (a_id a, q_id q)) <$> questions_of d t
         ∧ users (snd r) = users d
         ∧ templates (snd r) = templates d
         ∧ questions (snd r) = questions d)
  ∧ (body (fst r) ≠ Redirect (ep_assessment_view (next_id a_id (assessments d))) →
     snd r = d).
Proof.
  intros r. subst r. split; [|split; [|split; [|split]]].
  - intros Hauth Ht Hk. by rewrite serve_assessment_new_404, missing_in_range.
  - intros Hauth Ht Hk. by rewrite serve_assessment_new_404, missing_overflow.
  - intros Hauth [tpl Ht] Hm Hblank. by eapply serve_assessment_new_blank.
  - unfold assessment_new, add_assessment. cases; try (by left).
    rewrite for_each_add_answer. run. cbn [fst snd committed]. right.
    match goal with H : get t_id _ _ = Some ?tpl |- _ =>
      destruct (get_Some _ _ _ _ H) as [_ Hid] end.
    rewrite Hid.
    match goal with E : form_get _ "assessment_name" = Some ?s |- _ =>
      exists (added_assessment d req t s),
             (answer_rows (next_id ans_id (answers d)) (next_id a_id (assessments d))
                          (form req) (questions_of d t))
    end.
    cbn. repeat (split; [done|]). split; [|done].
    apply answer_rows_pairs.
  - unfold assessment_new, add_assessment. cases; try done.
    rewrite for_each_add_answer. run. cbn [fst snd committed body flash redirect].
    intros H. by destruct H.
Qed.

Lemma assessment_new_all_or_nothing_witness :
  authenticated example_db example_get
  ∧ get t_id (templates example_db) 7 = None
  ∧ serve (assessment_new example_post 7) example_db
    = (mkResponse [] Unchanged NotFoundPage, example_db)
  ∧ serve (assessment_new example_post 9223372036854775808) example_db
    = (mkResponse [] Unchanged InternalServerError, example_db)
  ∧ serve (assessment_new (mkRequest POST [("question_1", "yes")] (Some 1) 0 "") 1) example_db
    = (flash "Assessment name is required." "danger" (redirect (ep_assessment_new 1)),
       example_db).
Proof.
  assert (7 ≤ sqlite_max) as Hin by (vm_compute; discriminate).
  assert (sqlite_max < 9223372036854775808) as Hout by (vm_compute; reflexivity).
  split; [apply example_authenticated|]. split; [done|]. split; [|split].
  - exact (proj1 (assessment_new_all_or_nothing example_db example_post 7)
             (example_authenticated _ _ _ _) eq_refl Hin).
  - exact (proj1 (proj2 (assessment_new_all_or_nothing example_db example_post
                           9223372036854775808))
             (example_authenticated _ _ _ _) eq_refl Hout).
  - exact (proj1 (proj2 (proj2 (assessment_new_all_or_nothing example_db
                           (mkRequest POST [("question_1", "yes")] (Some 1) 0 "") 1)))
             (example_authenticated _ _ _ _) (mk_is_Some _ _ eq_refl) eq_refl eq_refl).
Defined.

(** ** Editing a question *)

(** C4.  A successful edit stores the submitted text, help text and type as
    they are: a field the form leaves out is stored as [None], whatever the
    row held before, and nothing else of the row or of the database changes.
    The edit succeeds when the template of the path exists and the form
    carries a text (the text column is [NOT NULL], so a form without one is
    refused by the storage layer and nothing is stored).  For a question
    that does not exist the answer is the not-found page when the ids of the
    path fit the id column; an id that does not fit and finds no row makes
    the lookup raise [OverflowError], and the answer is the server-error
    page.  Neither changes the database. *)
Theorem question_edit_overwrites d req t k :
  authenticated d req →
  method req = POST →
  let r := serve (question_edit req t k) d in
  (∀ q, get q_id (questions d) k = Some q →
     (fst r = flash "Question updated." "success" (redirect (ep_template_edit t))
      ↔ is_Some (get t_id (templates d) t) ∧ is_Some (form_get (form req) "text"))
     ∧ (fst r = flash "Question updated." "success" (redirect (ep_template_edit t)) →
        ∃ q', get q_id (questions (snd r)) k = Some q'
              ∧ Some (q_text q') = form_get (form req) "text"
              ∧ q_help_text q' = form_get (form req) "help_text"
              ∧ q_question_type q' = form_get (form req) "question_type"
              ∧ q_id q' = q_id q
              ∧ q_template_id q' = q_template_id q
              ∧ q_required q' = q_required q
              ∧ q_options_json q' = q_options_json q
              ∧ (∀ k', k' ≠ k → get q_id (questions (snd r)) k' = get q_id (questions d) k')
              ∧ users (snd r) = users d
              ∧ templates (snd r) = templates d
              ∧ assessments (snd r) = assessments d
              ∧ answers (snd r) = answers d))
  ∧ (get q_id (questions d) k = None → t ≤ sqlite_max → k ≤ sqlite_max →
     r = (mkResponse [] Unchanged NotFoundPage, d))
  ∧ (get q_id (questions d) k = None → is_Some (get t_id (templates d) t) →
     sqlite_max < k →
     r = (mkResponse [] Unchanged InternalServerError, d))
  ∧ (get t_id (templates d) t = None → sqlite_max < t →
     r = (mkResponse [] Unchanged InternalServerError, d)).
Proof.
  intros Hauth Hm r. subst r. split; [|split; [|split]].
  - intros q Hq.
    destruct (get t_id (templates d) t) as [tpl|] eqn:Ht.
    + destruct (form_get (form req) "text") as [x|] eqn:Hx.
      * rewrite (serve_question_edit_post d req t k tpl q x) by done. cbn [fst snd].
        split; [split; [by eauto|done]|]. intros _.
        exists (edited q x (form_get (form req) "help_text")
                       (form_get (form req) "question_type")).
        cbn. split; [by apply get_edited|].
        repeat (split; [done|]). split; [|done].
        intros k' Hne. by apply get_edited_ne.
      * rewrite (serve_question_edit_no_text d req t k tpl q) by done. cbn [fst].
        split; [split; [done|]|done]. intros [_ [? ?]]. done.
    + rewrite serve_question_edit_no_template by done. cbn [fst]. unfold missing.
      split; [split|]; [by destruct (decide (t ≤ sqlite_max))| |
                        by destruct (decide (t ≤ sqlite_max))].
      intros [[? ?] _]. done.
  - intros Hq Ht Hk. destruct (get t_id (templates d) t) as [tpl|] eqn:Htpl.
    + by rewrite (serve_question_edit_404 d req t k tpl), missing_in_range.
    + by rewrite serve_question_edit_no_template, missing_in_range.
  - intros Hq [tpl Ht] Hk.
    by rewrite (serve_question_edit_404 d req t k tpl), missing_overflow.
  - intros Ht Hk. by rewrite serve_question_edit_no_template, missing_overflow.
Qed.

Lemma question_edit_overwrites_witness :
  let req := mkRequest POST [("text", "Where is the data stored?")] (Some 1) 0 "" in
  let r := serve (question_edit req 1 1) example_db in
  authenticated example_db req
  ∧ (∃ q', get q_id (questions (snd r)) 1 = Some q'
           ∧ q_text q' = "Where is the data stored?"
           ∧ q_help_text q' = None
           ∧ q_question_type q' = None)
  ∧ serve (question_edit req 1 7) example_db
    = (mkResponse [] Unchanged NotFoundPage, example_db)
  ∧ serve (question_edit req 1 9223372036854775808) example_db
    = (mkResponse [] Unchanged InternalServerError, example_db).
Proof.
  intros req r. split; [apply example_authenticated|].
  assert (1 ≤ sqlite_max) as H1 by (vm_compute; discriminate).
  assert (7 ≤ sqlite_max) as H7 by (vm_compute; discriminate).
  assert (sqlite_max < 9223372036854775808) as Hout by (vm_compute; reflexivity).
  destruct (question_edit_overwrites example_db req 1 1
              (example_authenticated _ _ _ _) eq_refl) as [Hedit _].
  destruct (question_edit_overwrites example_db req 1 7
              (example_authenticated _ _ _ _) eq_refl) as (_ & Hmiss & _).
  destruct (question_edit_overwrites example_db req 1 9223372036854775808
              (example_authenticated _ _ _ _) eq_refl) as (_ & _ & Hover & _).
  destruct (Hedit _ eq_refl) as [_ Hok].
  destruct (Hok eq_refl) as (q' & Hget & Htext & Hhelp & Htype & _).
  split; [|split].
  - exists q'. split; [exact Hget|]. split; [|split; [exact Hhelp|exact Htype]].
    by injection Htext.
  - exact (Hmiss eq_refl H1 H7).
  - exact (Hover eq_refl (mk_is_Some _ _ eq_refl) Hout).
Defined.

(** ** Adding a question *)

(** C5.  Posting a blank question text (no field, or the empty string) to
    the page of an existing template changes nothing and is no error: the
    answer is the plain redirect back to the page.  The not-found page is
    answered only when the template does not exist, and it is the answer for
    every missing template whose id fits the id column; an id that does not
    fit makes the lookup raise [OverflowError], and the answer is the
    server-error page. *)
Theorem template_edit_blank_is_noop d req t :
  authenticated d req →
  (method req = POST →
   truthy (form_get (form req) "question_text") = false →
   is_Some (get t_id (templates d) t) →
   serve (template_edit req t) d = (redirect (ep_template_edit t), d)
   ∧ questions_of (snd (serve (template_edit req t) d)) t = questions_of d t)
  ∧ (body (fst (serve (template_edit req t) d)) = NotFoundPage →
     get t_id (templates d) t = None)
  ∧ (get t_id (templates d) t = None → t ≤ sqlite_max →
     serve (template_edit req t) d = (mkResponse [] Unchanged NotFoundPage, d))
  ∧ (get t_id (templates d) t = None → sqlite_max < t →
     serve (template_edit req t) d = (mkResponse [] Unchanged InternalServerError, d)).
Proof.
  intros Hauth. split; [|split; [|split]].
  - intros Hm Hblank [tpl Ht].
    by rewrite (serve_template_edit_blank d req t tpl).
  - destruct (get t_id (templates d) t) as [tpl|] eqn:Ht; [|done].
    destruct (method req) eqn:Hm.
    + by rewrite (serve_template_edit_get d req t tpl).
    + destruct (truthy (form_get (form req) "question_text")) eqn:Hx.
      * apply truthy_Some in Hx as (x & Hx & Hne).
        by rewrite (serve_template_edit_add d req t tpl x).
      * by rewrite (serve_template_edit_blank d req t tpl).
  - intros Ht Hk. by rewrite serve_template_edit_404, missing_in_range.
  - intros Ht Hk. by rewrite serve_template_edit_404, missing_overflow.
Qed.

Lemma template_edit_blank_is_noop_witness :
  let req := mkRequest POST [("question_text", "")] (Some 1) 0 "" in
  authenticated example_db req
  ∧ serve (template_edit req 1) example_db = (redirect (ep_template_edit 1), example_db)
  ∧ length (questions_of (snd (serve (template_edit req 1) example_db)) 1) = 2%nat
  ∧ serve (template_edit req 7) example_db
    = (mkResponse [] Unchanged NotFoundPage, example_db)
  ∧ serve (template_edit req 9223372036854775807) example_db
    = (mkResponse [] Unchanged NotFoundPage, example_db)
  ∧ serve (template_edit req 9223372036854775808) example_db
    = (mkResponse [] Unchanged InternalServerError, example_db).
Proof.
  intros req.
  assert (7 ≤ sqlite_max) as H7 by (vm_compute; discriminate).
  assert (9223372036854775807 ≤ sqlite_max) as Hmax by (vm_compute; discriminate).
  destruct (template_edit_blank_is_noop example_db req 9223372036854775807
              (example_authenticated _ _ _ _)) as (_ & _ & Hlast & _).
  assert (sqlite_max < 9223372036854775808) as Hout by (vm_compute; reflexivity).
  destruct (proj1 (template_edit_blank_is_noop example_db req 1
                     (example_authenticated _ _ _ _))
              eq_refl eq_refl (mk_is_Some _ _ eq_refl)) as [Hserve Hqs].
  destruct (template_edit_blank_is_noop example_db req 7
              (example_authenticated _ _ _ _)) as (_ & _ & Hmiss & _).
  destruct (template_edit_blank_is_noop example_db req 9223372036854775808
              (example_authenticated _ _ _ _)) as (_ & _ & _ & Hover).
  split; [apply example_authenticated|]. split; [exact Hserve|].
  split; [exact (f_equal length Hqs)|].
  split; [exact (Hmiss eq_refl H7)|].
  split; [exact (Hlast eq_refl Hmax)|exact (Hover eq_refl Hout)].
Defined.

(** ** Deleting a question *)

(** C6.  Deleting an existing question removes its row and no other, and
    leaves the assessments and every answer, those recorded against the
    deleted question among them, as they were.  For a question that does not
    exist the answer is the not-found page when the id fits the id column;
    an id that does not fit makes the lookup raise [OverflowError], and the
    answer is the server-error page.  Neither changes the database. *)
Theorem question_delete_keeps_answers d req t k :
  authenticated d req →
  let r := serve (question_delete req t k) d in
  (is_Some (get q_id (questions d) k) →
   get q_id (questions (snd r)) k = None
   ∧ (∀ q, q ∈ questions (snd r) ↔ q ∈ questions d ∧ q_id q ≠ k)
   ∧ answers (snd r) = answers d
   ∧ assessments (snd r) = assessments d
   ∧ (∀ a, answers_of (snd r) a = answers_of d a)
   ∧ (∀ ans, ans ∈ answers d → ans_question_id ans = k → ans ∈ answers (snd r)))
  ∧ (get q_id (questions d) k = None → k ≤ sqlite_max →
     r = (mkResponse [] Unchanged NotFoundPage, d))
  ∧ (get q_id (questions d) k = None → sqlite_max < k →
     r = (mkResponse [] Unchanged InternalServerError, d)).
Proof.
  intros Hauth r. subst r. split; [|split].
  - intros [q Hq]. rewrite (serve_question_delete d req t k q) by done. cbn.
    split; [apply get_filter_ne|]. split.
    + intros q'. rewrite list_elem_of_filter. tauto.
    + done.
  - intros Hq Hk. by rewrite serve_question_delete_404, missing_in_range.
  - intros Hq Hk. by rewrite serve_question_delete_404, missing_overflow.
Qed.

Lemma question_delete_keeps_answers_witness :
  let d := snd (serve (assessment_new example_post 1) example_db) in
  let d' := snd (serve (question_delete example_post 1 1) d) in
  authenticated d example_post
  ∧ get q_id (questions d') 1 = None
  ∧ (λ a, (ans_question_id a, ans_answer_text a)) <$> answers_of d' 1
    = [(1, Some "yes"); (2, None)]
  ∧ serve (question_delete example_post 1 7) d = (mkResponse [] Unchanged NotFoundPage, d)
  ∧ serve (question_delete example_post 1 9223372036854775808) d
    = (mkResponse [] Unchanged InternalServerError, d).
Proof.
  intros d d'.
  assert (authenticated d example_post) as Hauth by (exists 1; split; [done|by eexists]).
  assert (7 ≤ sqlite_max) as H7 by (vm_compute; discriminate).
  assert (sqlite_max < 9223372036854775808) as Hout by (vm_compute; reflexivity).
  destruct (proj1 (question_delete_keeps_answers d example_post 1 1 Hauth)
              (mk_is_Some _ _ eq_refl)) as (Hgone & _ & _ & _ & Hsame & _).
  destruct (question_delete_keeps_answers d example_post 1 7 Hauth) as (_ & Hmiss & _).
  destruct (question_delete_keeps_answers d example_post 1 9223372036854775808 Hauth)
    as (_ & _ & Hover).
  split; [exact Hauth|]. split; [exact Hgone|]. split.
  - exact (eq_trans (f_equal (fmap (λ a, (ans_question_id a, ans_answer_text a))) (Hsame 1))
                    eq_refl).
  - split; [exact (Hmiss eq_refl H7)|exact (Hover eq_refl Hout)].
Defined.

(** ** The order of questions *)

(** C7.  The template page and the blank assessment form show the same
    list of questions, the template's rows of the question table in table
    order.  In a well-formed database that order is strictly ascending in
    the question id, and it is the order of insertion: a question added
    through the template page, whose id is larger than every id in the
    table, comes last. *)
Theorem question_lists_in_id_order d req t tpl :
  wf d →
  authenticated d req →
  method req = GET →
  get t_id (templates d) t = Some tpl →
  ∃ qs,
    serve (template_edit req t) d
    = (render_template (template_edit_html (Some tpl) (Some qs)), d)
    ∧ serve (assessment_new req t) d = (render_template (assessment_new_html tpl qs), d)
    ∧ (∀ q, q ∈ qs ↔ q ∈ questions d ∧ q_template_id q = t)
    ∧ StronglySorted N.lt (q_id <$> qs)
    ∧ (∀ (i j : nat) q q', qs !! i = Some q → qs !! j = Some q' →
         (i < j)%nat ↔ q_id q < q_id q')
    ∧ ∀ post x,
        authenticated d post → method post = POST →
        form_get (form post) "question_text" = Some x → x ≠ "" →
        let d' := snd (serve (template_edit post t) d) in
        questions_of d' t = qs ++ [added_question d post t x]
        ∧ ∀ q, q ∈ qs → q_id q < q_id (added_question d post t x).
Proof.
  intros Hwf Hauth Hm Ht. exists (questions_of d t).
  assert (StronglySorted N.lt (q_id <$> questions_of d t)) as Hsorted.
  { apply (ascending_filter q_id), Hwf. }
  split; [by apply serve_template_edit_get|].
  split; [by apply serve_assessment_new_get|].
  split; [intros q; unfold questions_of; by rewrite list_elem_of_filter, (comm (∧))|].
  split; [done|]. split.
  - intros i j q q' Hi Hj.
    assert ((q_id <$> questions_of d t) !! i = Some (q_id q)) as Hi'
      by (by rewrite list_lookup_fmap, Hi).
    assert ((q_id <$> questions_of d t) !! j = Some (q_id q')) as Hj'
      by (by rewrite list_lookup_fmap, Hj).
    split.
    + intros Hlt. by apply (strongly_sorted_lookup _ _ i j _ _ Hsorted).
    + intros Hlt. destruct (decide (i < j)%nat) as [|Hge]; [done|]. exfalso.
      destruct (decide (i = j)) as [->|Hne].
      * rewrite Hi in Hj. injection Hj as ->. lia.
      * assert (q_id q' < q_id q)
          by (apply (strongly_sorted_lookup _ _ j i _ _ Hsorted); [done|done|lia]).
        lia.
  - intros post x Hpost Hpm Hx Hne d'. subst d'.
    rewrite (serve_template_edit_add d post t tpl x) by done. split.
    + unfold questions_of. cbn. rewrite filter_app.
      by rewrite (filter_all _ [_]) by (by intros ? ->%list_elem_of_singleton).
    + intros q [_ Hin]%list_elem_of_filter. cbn. by apply lt_next_id.
Qed.

Lemma question_lists_in_id_order_witness :
  wf example_db
  ∧ ∃ qs,
      serve (template_edit example_get 1) example_db
      = (render_template
           (template_edit_html (Some (mkTemplate 1 "Vendor Check" "Due Diligence" None))
                               (Some qs)), example_db)
      ∧ q_id <$> qs = [1; 2].
Proof.
  split; [exact wf_example_db|].
  destruct (question_lists_in_id_order example_db example_get 1
              (mkTemplate 1 "Vendor Check" "Due Diligence" None)
              wf_example_db (example_authenticated _ _ _ _) eq_refl eq_refl)
    as (qs & Hedit & _).
  exists qs. split; [exact Hedit|].
  injection Hedit as <-. reflexivity.
Defined.

(** ** The list of assessments *)

(** C8.  [assessments_list] shows every stored assessment, each once, by
    the creation time the rows were stored with: an assessment with a later
    [created_at] stands before every one with an earlier [created_at], and
    assessments with the same [created_at] stand in the order of the table,
    which is the order they were stored in. *)
Theorem assessments_list_newest_first d req :
  authenticated d req →
  ∃ l,
    serve (assessments_list req) d = (render_template (assessments_list_html l), d)
    ∧ l ≡ₚ assessments d
    ∧ (∀ (i j : nat) a b,
         l !! i = Some a → l !! j = Some b →
         a_created_at b < a_created_at a →
         (i < j)%nat)
    ∧ ∀ c, filter (λ a, a_created_at a = c) l
           = filter (λ a, a_created_at a = c) (assessments d).
Proof.
  intros Hauth. exists (order_by_desc a_created_at (assessments d)).
  split; [by apply serve_assessments_list|].
  split; [apply order_by_desc_perm|]. split.
  - intros i j a b. apply order_by_desc_before.
  - intros c. apply order_by_desc_same_key.
Qed.

Lemma assessments_list_newest_first_witness :
  let d := snd (serve (assessment_new
                         (mkRequest POST [("assessment_name", "Later review")] (Some 1) 2000 "")
                         1)
                      (snd (serve (assessment_new example_post 1) example_db))) in
  authenticated d example_get
  ∧ ∃ l,
      body (fst (serve (assessments_list example_get) d)) = Render (assessments_list_html l)
      ∧ a_name <$> l = ["Later review"; "Acme Review"].
Proof.
  intros d.
  assert (authenticated d example_get) as Hauth by (exists 1; split; [done|by eexists]).
  destruct (assessments_list_newest_first d example_get Hauth) as (l & Hl & _ & _).
  split; [exact Hauth|]. exists l.
  split; [exact (f_equal (λ x, body (fst x)) Hl)|].
  injection Hl as <-. reflexivity.
Defined.

(** The list is by the stored clock reading, not by the order of creation:
    in the run whose second assessment is filed under an earlier clock
    reading, the assessment created last stands last. *)
Lemma assessments_list_later_created_listed_second :
  let first := mkAssessment 1 1 "Acme Review" None None 1000 in
  let second := mkAssessment 2 1 "Second review" None None 500 in
  reachable example_hash example_check run_db3
  ∧ serve (assessments_list example_get) run_db3
    = (render_template (assessments_list_html [first; second]), run_db3)
  ∧ created_after run_db3 second first
  ∧ ¬ precedes [first; second] second first.
Proof.
  intros first second. split; [apply reach_serve, reach_serve, reach_serve, reach_first|].
  split; [vm_compute; reflexivity|]. split.
  - exists 0%nat, 1%nat. split; [vm_compute; reflexivity|].
    split; [vm_compute; reflexivity|lia].
  - intros (i & j & Hi & Hj & Hlt).
    destruct i as [|[|i]]; cbn in Hi; try discriminate.
    destruct j as [|[|j]]; cbn in Hj; try discriminate; lia.
Qed.

(** ** Seeding *)

Lemma startup_templates d : templates d = [] → templates (startup d) = seeded_templates.
Proof. destruct d as [us ts qs ass ans]. cbn. intros ->. reflexivity. Qed.

(** C9.  Started on an empty template table, the program stores the two
    default templates, each with its six questions in the order and wording
    written out below, and touches no other table; started on a template
    table that holds a row, it changes nothing.  So starting twice is
    starting once. *)
Theorem seed_default_templates_idempotent d :
  (wf d → templates d = [] →
   (λ t, (t_id t, t_name t)) <$> templates (startup d)
   = [(1, "Third-Party Due Diligence Assessment");
      (2, "Data Protection Impact Assessment (DPIA)")]
   ∧ q_text <$> questions_of (startup d) 1
     = [ "What is the legal name of the vendor?";
         "Describe the services the vendor will provide.";
         "Will the vendor process personal data?";
         "Will the vendor process special categories of personal data?";
         "Where will the data be stored and processed?";
         "Does the vendor have security certifications?" ]
   ∧ q_text <$> questions_of (startup d) 2
     = [ "Describe the processing activity.";
         "What types of personal data are processed?";
         "Who are the data subjects?";
         "What risks exist?";
         "What safeguards are implemented?";
         "Any data transfer outside the EEA?" ]
   ∧ length (questions (startup d)) = 12%nat
   ∧ users (startup d) = users d
   ∧ assessments (startup d) = assessments d
   ∧ answers (startup d) = answers d)
  ∧ (templates d ≠ [] → startup d = d)
  ∧ startup (startup d) = startup d.
Proof.
  split; [|split].
  - intros Hwf Ht. rewrite startup_empty by eauto using wf_no_templates.
    repeat split; reflexivity.
  - apply startup_nonempty.
  - destruct (templates d) as [|t ts] eqn:Ht.
    + apply startup_nonempty. rewrite startup_templates by done. discriminate.
    + assert (templates d ≠ []) as Hne by (by rewrite Ht).
      by rewrite !(startup_nonempty d Hne).
Qed.

Lemma seed_default_templates_idempotent_witness :
  wf empty_db
  ∧ t_name <$> templates (startup empty_db)
    = ["Third-Party Due Diligence Assessment"; "Data Protection Impact Assessment (DPIA)"]
  ∧ q_text <$> questions_of (startup empty_db) 1
    = [ "What is the legal name of the vendor?";
        "Describe the services the vendor will provide.";
        "Will the vendor process personal data?";
        "Will the vendor process special categories of personal data?";
        "Where will the data be stored and processed?";
        "Does the vendor have security certifications?" ]
  ∧ q_text <$> questions_of (startup empty_db) 2
    = [ "Describe the processing activity.";
        "What types of personal data are processed?";
        "Who are the data subjects?";
        "What risks exist?";
        "What safeguards are implemented?";
        "Any data transfer outside the EEA?" ]
  ∧ startup (startup empty_db) = startup empty_db.
Proof.
  destruct (seed_default_templates_idempotent empty_db) as (Hseed & _ & Hidem).
  destruct (Hseed wf_empty eq_refl) as (Hts & Hdd & Hdpia & _).
  split; [exact wf_empty|].
  split; [exact (eq_trans (list_fmap_compose _ snd _)
                          (f_equal (fmap snd) Hts))|].
  split; [exact Hdd|]. split; [exact Hdpia|].
  exact Hidem.
Defined.

(** ** The template id in the path of the question routes *)

(** C10.  [question_delete] and [question_edit] find the question by the
    question id alone.  With any template id in the path other than the one
    the question belongs to, [question_delete] removes the question just as
    it does under the owning template's id, whether or not the path names a
    template; [question_edit], which first looks the path's template up,
    edits the question under the id of any other existing template. *)
Theorem question_routes_ignore_template_id d req t k q :
  authenticated d req →
  get q_id (questions d) k = Some q →
  t ≠ q_template_id q →
  let deleted := serve (question_delete req t k) d in
  let edit := serve (question_edit req t k) d in
  (body (fst deleted) = Redirect (ep_template_edit t)
   ∧ get q_id (questions (snd deleted)) k = None
   ∧ snd deleted = snd (serve (question_delete req (q_template_id q) k) d))
  ∧ (method req = POST →
     is_Some (get t_id (templates d) t) →
     ∀ x, form_get (form req) "text" = Some x →
          body (fst edit) = Redirect (ep_template_edit t)
          ∧ get q_id (questions (snd edit)) k
            = Some (edited q x (form_get (form req) "help_text")
                             (form_get (form req) "question_type"))).
Proof.
  intros Hauth Hq Hne deleted edit. subst deleted edit. split.
  - rewrite !(serve_question_delete d req _ k q) by done. cbn.
    split; [done|]. split; [apply get_filter_ne|done].
  - intros Hm [tpl Ht] x Hx.
    rewrite (serve_question_edit_post d req t k tpl q x) by done. cbn.
    split; [done|]. by apply get_edited.
Qed.

Lemma question_routes_ignore_template_id_witness :
  let req := mkRequest POST [("text", "Who is the vendor?")] (Some 1) 0 "" in
  let q := mkQuestion 1 1 "What is the legal name of the vendor?" None true
                      (Some "textarea") None in
  authenticated seeded_db req
  ∧ get q_id (questions seeded_db) 1 = Some q
  ∧ get q_id (questions (snd (serve (question_delete req 99 1) seeded_db))) 1 = None
  ∧ get q_id (questions (snd (serve (question_edit req 2 1) seeded_db))) 1
    = Some (edited q "Who is the vendor?" None None).
Proof.
  intros req q.
  assert (authenticated seeded_db req) as Hauth.
  { exists 1. split; [reflexivity|]. eexists. vm_compute. reflexivity. }
  assert (get q_id (questions seeded_db) 1 = Some q) as Hq by (vm_compute; reflexivity).
  assert (99 ≠ q_template_id q) as Hne99 by discriminate.
  assert (2 ≠ q_template_id q) as Hne2 by discriminate.
  assert (is_Some (get t_id (templates seeded_db) 2)) as Ht.
  { eexists. vm_compute. reflexivity. }
  split; [exact Hauth|]. split; [exact Hq|]. split.
  - exact (proj1 (proj2 (proj1
             (question_routes_ignore_template_id seeded_db req 99 1 q Hauth Hq Hne99)))).
  - exact (proj2 (proj2 (question_routes_ignore_template_id seeded_db req 2 1 q Hauth Hq Hne2)
                    eq_refl Ht "Who is the vendor?" eq_refl)).
Defined.

(** ** Registration *)

Section Registration.
Variable generate_password_hash : string → string → string.
Variable check_password_hash : string → string → bool.
Hypothesis check_generated :
  ∀ s p, check_password_hash (generate_password_hash s p) p = true.

(** X16.  After a registration, a second one under the same name is turned
    away with a notice and a redirect to the form and stores nothing, and the
    first user then logs in with the first password, under the id the
    registration gave. *)
Lemma register_twice d req req' login_req n p p' :
  method req = POST →
  form_get (form req) "username" = Some n →
  form_get (form req) "password" = Some p →
  user_by_name d (Some n) = None →
  method req' = POST →
  form_get (form req') "username" = Some n →
  form_get (form req') "password" = Some p' →
  method login_req = POST →
  form_get (form login_req) "username" = Some n →
  form_get (form login_req) "password" = Some p →
  let first := serve (register generate_password_hash req) d in
  let second := serve (register generate_password_hash req') (snd first) in
  fst first
  = flash "User created successfully. Please login." "success" (redirect ep_login)
  ∧ second = (flash "Username already exists" "danger" (redirect ep_register), snd first)
  ∧ fst (serve (login check_password_hash login_req) (snd second))
    = mkResponse [] (LoggedIn (next_id u_id (users d))) (Redirect ep_main).
Proof.
  intros Hm Hn Hp Hfree Hm' Hn' Hp' Hml Hnl Hpl first second. subst first second.
  rewrite (serve_register_ok _ d req n p) by done. cbn [fst snd].
  assert (user_by_name (set_users (users d ++ [added_user generate_password_hash d req n p]) d)
                       (Some n)
          = Some (added_user generate_password_hash d req n p)) as Hfound.
  { cbn. by apply (user_by_name_snoc d (added_user generate_password_hash d req n p)). }
  rewrite (serve_register_conflict _ _ req' (added_user generate_password_hash d req n p))
    by (by rewrite ?Hn').
  cbn [fst snd]. split; [done|]. split; [done|].
  rewrite (serve_login_ok _ _ login_req (added_user generate_password_hash d req n p) p);
    [done|done|by rewrite Hnl|done|apply check_generated].
Qed.
End Registration.

(** C3.  A registration that lacks the username, or lacks the password, is
    not answered with the form and a notice: the storage layer or the hasher
    raises, and the answer is the server-error page.  A registration whose
    two fields are present and empty is accepted and creates a user with the
    empty name. *)
Theorem register_missing_fields_not_reshown (generate_password_hash : string → string → string) :
  let register := register generate_password_hash in
  let no_username := mkRequest POST [("password", "pw1")] None 0 "salt" in
  let no_password := mkRequest POST [("username", "alice")] None 0 "salt" in
  let both_empty := mkRequest POST [("username", ""); ("password", "")] None 0 "salt" in
  serve (register no_username) (startup empty_db)
  = (mkResponse [] Unchanged InternalServerError, startup empty_db)
  ∧ serve (register no_password) (startup empty_db)
    = (mkResponse [] Unchanged InternalServerError, startup empty_db)
  ∧ serve (register both_empty) (startup empty_db)
    = (flash "User created successfully. Please login." "success" (redirect ep_login),
       set_users [mkUser 1 "" (generate_password_hash "salt" "")] (startup empty_db)).
Proof.
  intros register no_username no_password both_empty. subst register.
  split; [|split].
  - by apply serve_register_no_username.
  - by apply serve_register_no_password.
  - by rewrite (serve_register_ok _ _ both_empty "" "").
Qed.


(** * Further properties of the routes *)


Lemma truthy_ne v s : truthy v = true → v = Some s → s ≠ "".
Proof. intros Ht ->. cbn in Ht. by intros ->. Qed.

Lemma truthy_false_ne v s : truthy v = false → v = Some s → s = "".
Proof.
  intros Ht ->. cbn in Ht. destruct (String.eqb_spec s ""); [done|discriminate].
Qed.

Section Routes.
Variable generate_password_hash : string → string → string.
Variable check_password_hash : string → string → bool.

Abbreviation route' := (dispatch generate_password_hash check_password_hash).

(** Every request leaves the database in one of the seven ways of
    [change]. *)
Lemma serve_change r req d : change d (snd (serve (route' r req) d)).
Proof.
  destruct r; cbn [dispatch].
  - unfold register, set_password, add_user. cases; try apply ch_none.
    by apply ch_user.
  - unfold login, check_password. cases; try apply ch_none.
    destruct (check_password_hash _ _); apply ch_none.
  - unfold logout. cases; apply ch_none.
  - unfold main. cases; apply ch_none.
  - unfold index. cases; apply ch_none.
  - unfold templates_list. cases; apply ch_none.
  - unfold template_new, add_template. cases; try apply ch_none.
    apply ch_template; eauto using truthy_ne.
  - unfold template_edit, add_question. cases; try apply ch_none.
    match goal with H : get t_id _ _ = Some ?t |- _ =>
      destruct (get_Some _ _ _ _ H) as [_ Hid] end.
    apply ch_question; [rewrite Hid; by eexists|eauto using truthy_ne].
  - unfold question_delete, delete_question. cases; try apply ch_none.
    apply ch_delete.
  - unfold question_edit, update_question. cases; try apply ch_none.
    apply ch_edit.
  - unfold assessments_list. cases; apply ch_none.
  - unfold assessment_new, add_assessment. cases; try apply ch_none.
    rewrite for_each_add_answer. run. cbn [snd committed].
    match goal with
    | H : get t_id _ ?k = Some ?t, E : form_get _ "assessment_name" = Some ?s |- _ =>
        destruct (get_Some _ _ _ _ H) as [_ Hid];
        refine (ch_assessment d req (t_id t) s _ _);
        [rewrite Hid; by eexists|eauto using truthy_ne]
    end.
  - unfold assessment_view. cases; apply ch_none.
Qed.
End Routes.

(** ** What holds in every database the program reaches *)

Lemma answer_rows_ascending l i f qs :
  ascending ans_id l → ascending ans_id (l ++ answer_rows (next_id ans_id l) i f qs).
Proof.
  revert l. induction qs as [|q qs IH]; intros l Hl; cbn [answer_rows].
  - by rewrite app_nil_r.
  - rewrite cons_middle, app_assoc.
    rewrite <- (next_id_snoc ans_id l
                  (mkAnswer (next_id ans_id l) i (q_id q) (form_get f (field_name (q_id q)))))
      by done.
    apply IH. by apply ascending_snoc.
Qed.

Lemma user_by_name_None d n :
  user_by_name d (Some n) = None → n ∉ u_username <$> users d.
Proof.
  cbn. intros Hnone (u & -> & Hin)%list_elem_of_fmap.
  apply list_elem_of_In in Hin. pose proof (find_none _ _ Hnone u Hin) as Hneq.
  cbn in Hneq. by rewrite String.eqb_refl in Hneq.
Qed.

Lemma sound_change d d' : sound d → change d d' → sound d'.
Proof.
  intros [Hwf Hu Hans Hnames Hdef Htpl Hass] Hch.
  destruct Hch as [|n h Hfree|n ty desc Hn Hty|t x h ty Ht Hx|k|k x h ty|req t name Ht Hname].
  - by split.
  - split; cbn; try done.
    + by apply wf_set_users.
    + by apply ascending_snoc.
    + rewrite fmap_app. apply NoDup_app. split; [done|]. split.
      * intros x Hx ->%list_elem_of_singleton.
        by apply (user_by_name_None d n).
      * apply NoDup_singleton.
  - split; cbn; try done.
    + by apply wf_add_template.
    + by apply prefix_app_r.
    + intros t [Hin| ->%list_elem_of_singleton]%elem_of_app; [auto|done].
    + intros a Hin. destruct (Hass a Hin) as (? & [t Hget] & ?).
      split; [done|]. split; [|done]. exists t. by apply get_app_Some.
  - split; cbn; try done. by apply wf_add_question.
  - split; cbn; try done. by apply wf_delete_question.
  - split; cbn; try done. by apply wf_update_question.
  - split; try done.
    + by apply wf_with_assessment.
    + cbn. by apply answer_rows_ascending.
    + intros a Hin. cbn in Hin. apply elem_of_app in Hin as [Hin| ->%list_elem_of_singleton].
      * destruct (Hass a Hin) as (? & ? & ?). split; [done|]. split; [done|].
        rewrite answers_of_old_with_assessment; [done|].
        apply (lt_next_id a_id) in Hin. lia.
      * split; [done|]. split; [done|]. cbn [a_id added_assessment].
        rewrite answers_of_with_assessment by done.
        rewrite answer_rows_questions. by apply questions_of_NoDup.
Qed.

Lemma sound_first : sound (startup empty_db).
Proof.
  pose proof (wf_startup empty_db wf_empty) as Hwf.
  rewrite (startup_empty empty_db eq_refl eq_refl) in *.
  split.
  - exact Hwf.
  - constructor.
  - constructor.
  - constructor.
  - done.
  - intros t Hin. change (t ∈ seeded_templates) in Hin. unfold seeded_templates in Hin.
    apply elem_of_cons in Hin as [->|Hin]; [by split|].
    apply list_elem_of_singleton in Hin as ->. by split.
  - intros a Hin. by apply elem_of_nil in Hin.
Qed.

Lemma sound_restart d : sound d → startup d = d.
Proof.
  intros Hs. apply startup_nonempty. intros Hnil.
  destruct (sound_defaults d Hs) as [k Hk]. rewrite Hnil in Hk. done.
Qed.

Section Reached.
Variable generate_password_hash : string → string → string.
Variable check_password_hash : string → string → bool.

Abbreviation reached := (reachable generate_password_hash check_password_hash).

Lemma reachable_sound d : reached d → sound d.
Proof.
  induction 1 as [|d r req _ IH|d _ IH].
  - apply sound_first.
  - eapply sound_change; [done|apply serve_change].
  - by rewrite sound_restart.
Qed.
End Reached.

(** ** What the routes never do *)

Section Never.
Variable generate_password_hash : string → string → string.
Variable check_password_hash : string → string → bool.

Abbreviation routed := (dispatch generate_password_hash check_password_hash).


(** X2.  A GET request changes nothing, whatever the route and whoever
    sends it. *)
Theorem get_requests_change_nothing r req d :
  method req = GET → snd (serve (routed r req) d) = d.
Proof.
  intros Hm. destruct r; cbn [dispatch];
    unfold register, login, logout, main, index, templates_list, template_new,
      template_edit, question_delete, question_edit, assessments_list, assessment_new,
      assessment_view;
    cases; congruence.
Qed.

(** X3.  No request removes or rewrites a stored user, template,
    assessment or answer: after any request each of these tables starts with
    the rows it had. *)
Theorem requests_only_append r req d :
  let d' := snd (serve (routed r req) d) in
  users d `prefix_of` users d'
  ∧ templates d `prefix_of` templates d'
  ∧ assessments d `prefix_of` assessments d'
  ∧ answers d `prefix_of` answers d'.
Proof.
  intros d'. subst d'. destruct (serve_change generate_password_hash check_password_hash r req d);
    cbn; repeat split; try done; by apply prefix_app_r.
Qed.

(** X4.  Each route writes to its own tables only: [register] to the
    users, [template_new] to the templates, the template page and the two
    question routes to the questions, [assessment_new] to the assessments
    and answers, and every other route to none. *)
Theorem routes_write_their_own_tables r req d :
  let d' := snd (serve (routed r req) d) in
  match r with
  | r_register =>
      templates d' = templates d ∧ questions d' = questions d
      ∧ assessments d' = assessments d ∧ answers d' = answers d
  | r_template_new =>
      users d' = users d ∧ questions d' = questions d
      ∧ assessments d' = assessments d ∧ answers d' = answers d
  | r_template_edit _ | r_question_delete _ _ | r_question_edit _ _ =>
      users d' = users d ∧ templates d' = templates d
      ∧ assessments d' = assessments d ∧ answers d' = answers d
  | r_assessment_new _ =>
      users d' = users d ∧ templates d' = templates d ∧ questions d' = questions d
  | _ => d' = d
  end.
Proof.
  intros d'. subst d'. destruct r; cbn [dispatch].
  - unfold register, set_password, add_user. cases; done.
  - unfold login, check_password. cases; try done.
    destruct (check_password_hash _ _); done.
  - unfold logout. cases; done.
  - unfold main. cases; done.
  - unfold index. cases; done.
  - unfold templates_list. cases; done.
  - unfold template_new, add_template. cases; done.
  - unfold template_edit, add_question. cases; done.
  - unfold question_delete, delete_question. cases; done.
  - unfold question_edit, update_question. cases; done.
  - unfold assessments_list. cases; done.
  - unfold assessment_new, add_assessment. cases; try done.
    rewrite for_each_add_answer. run. done.
  - unfold assessment_view. cases; done.
Qed.
End Never.


Lemma get_requests_change_nothing_witness :
  method example_get = GET
  ∧ snd (serve (dispatch example_hash example_check (r_question_delete 1 1) example_get)
               example_db)
    = example_db.
Proof.
  split; [reflexivity|].
  exact (get_requests_change_nothing example_hash example_check
           (r_question_delete 1 1) example_get example_db eq_refl).
Defined.

(** ** Lookups in tables without repeated keys *)

Lemma get_ascending {A} (key : A → N) (rows : list A) (r : A) :
  ascending key rows → r ∈ rows → get key rows (key r) = Some r.
Proof.
  unfold ascending, get. induction rows as [|x rows IH]; intros Hs Hin.
  - by apply elem_of_nil in Hin.
  - rewrite fmap_cons in Hs. apply StronglySorted_inv in Hs as [Hs Hall]. cbn.
    apply elem_of_cons in Hin as [->|Hin]; [by rewrite N.eqb_refl|].
    rewrite Forall_forall in Hall.
    assert (key x < key r) as Hlt by (apply Hall, list_elem_of_fmap; eauto).
    destruct (N.eqb_spec (key x) (key r)); [lia|auto].
Qed.

Lemma find_username (l : list User) (u : User) :
  NoDup (u_username <$> l) → u ∈ l →
  List.find (λ u', String.eqb (u_username u') (u_username u)) l = Some u.
Proof.
  induction l as [|x l IH]; intros Hnd Hin.
  - by apply elem_of_nil in Hin.
  - rewrite fmap_cons in Hnd. apply NoDup_cons in Hnd as [Hx Hnd]. cbn.
    apply elem_of_cons in Hin as [->|Hin]; [by rewrite String.eqb_refl|].
    destruct (String.eqb_spec (u_username x) (u_username u)) as [Heq|]; [|auto].
    destruct Hx. rewrite Heq. apply list_elem_of_fmap. eauto.
Qed.

Lemma prefix_app (p q : string) : String.prefix p (p +:+ q) = true.
Proof.
  induction p as [|c p IH].
  - by destruct ("" +:+ q).
  - change (String c p +:+ q) with (String c (p +:+ q)). cbn [String.prefix].
    by destruct (Ascii.ascii_dec c c).
Qed.

Lemma example_check_generated s p : example_check (example_hash s p) p = true.
Proof. apply prefix_app. Qed.

(** ** Databases the program reaches *)

Section Invariants.
Variable generate_password_hash : string → string → string.
Variable check_password_hash : string → string → bool.

(** X6.  Usernames stay unique, so a stored user who submits the own name
    and a password that checks against the stored hash is logged in under
    the own id; with a password that does not check, the answer is the
    invalid-credentials notice. *)
Theorem reachable_users_log_in d u req p :
  reachable generate_password_hash check_password_hash d →
  u ∈ users d →
  method req = POST →
  form_get (form req) "username" = Some (u_username u) →
  form_get (form req) "password" = Some p →
  NoDup (u_username <$> users d)
  ∧ serve (login check_password_hash req) d
    = (if check_password_hash (u_password_hash u) p
       then mkResponse [] (LoggedIn (u_id u)) (Redirect ep_main)
       else flash "Invalid username or password" "danger" (redirect ep_login),
       d).
Proof.
  intros Hreach Hin Hm Hn Hp.
  pose proof (sound_usernames d (reachable_sound _ _ d Hreach)) as Hnd.
  split; [done|].
  unfold login, serve. rewrite Hm, Hn, Hp. run.
  unfold user_by_name. rewrite (find_username _ u) by done.
  unfold check_password. run.
  by destruct (check_password_hash _ _).
Qed.

(** X7.  Once the program has run, starting it again changes nothing: the
    two default templates are still the first rows of the template table,
    so the seed finds the table non-empty. *)
Theorem restart_changes_nothing d :
  reachable generate_password_hash check_password_hash d →
  seeded_templates `prefix_of` templates d ∧ startup d = d.
Proof.
  intros Hreach. pose proof (reachable_sound _ _ d Hreach) as Hs.
  split; [apply Hs|by apply sound_restart].
Qed.

(** X8.  Every stored assessment has a non-empty name and a template that
    is still stored, and its page shows all of its answers: the dictionary
    has one entry per answer, each under the answer's own question id. *)
Theorem reachable_assessments_complete d a req :
  reachable generate_password_hash check_password_hash d →
  a ∈ assessments d →
  authenticated d req →
  a_name a ≠ ""
  ∧ is_Some (get t_id (templates d) (a_template_id a))
  ∧ ∃ m,
      serve (assessment_view req (a_id a)) d
      = (render_template (assessment_view_html a m), d)
      ∧ size m = length (answers_of d (a_id a))
      ∧ ∀ ans, ans ∈ answers_of d (a_id a) → m !! ans_question_id ans = Some ans.
Proof.
  intros Hreach Hin Hauth. pose proof (reachable_sound _ _ d Hreach) as Hs.
  destruct (sound_assessments d Hs a Hin) as (Hname & Ht & Hnd).
  split; [done|]. split; [done|].
  exists (answers_by_question (answers_of d (a_id a))). split; [|split].
  - apply serve_assessment_view; [done|].
    apply get_ascending; [apply Hs|done].
  - by apply answers_by_question_size.
  - intros ans Hans. by apply answers_by_question_lookup.
Qed.

(** X9.  Every stored template has a non-empty name and a non-empty type,
    and ids are never shared within the users or within the answers. *)
Theorem reachable_templates_named d :
  reachable generate_password_hash check_password_hash d →
  (∀ t, t ∈ templates d → t_name t ≠ "" ∧ t_template_type t ≠ "")
  ∧ NoDup (u_id <$> users d)
  ∧ NoDup (ans_id <$> answers d).
Proof.
  intros Hreach. pose proof (reachable_sound _ _ d Hreach) as Hs.
  split; [apply Hs|]. split; apply ascending_NoDup; apply Hs.
Qed.
End Invariants.

Lemma run_db2_reachable : reachable example_hash example_check run_db2.
Proof. apply reach_serve, reach_serve, reach_first. Qed.

Lemma run_db2_authenticated m f now s : authenticated run_db2 (mkRequest m f (Some 1) now s).
Proof. exists 1. split; [reflexivity|]. eexists. vm_compute. reflexivity. Qed.

Lemma reachable_wf_witness : reachable example_hash example_check run_db2 ∧ wf run_db2.
Proof.
  split; [exact run_db2_reachable|].
  exact (reachable_wf example_hash example_check run_db2 run_db2_reachable).
Defined.

Lemma reachable_users_log_in_witness :
  reachable example_hash example_check run_db2
  ∧ mkUser 1 "alice" "pw1$salt" ∈ users run_db2
  ∧ fst (serve (login example_check run_login) run_db2)
    = mkResponse [] (LoggedIn 1) (Redirect ep_main).
Proof.
  assert (mkUser 1 "alice" "pw1$salt" ∈ users run_db2) as Hin by (vm_compute; left).
  split; [exact run_db2_reachable|]. split; [exact Hin|].
  exact (f_equal fst
           (proj2 (reachable_users_log_in example_hash example_check run_db2
                     (mkUser 1 "alice" "pw1$salt") run_login "pw1"
                     run_db2_reachable Hin eq_refl eq_refl eq_refl))).
Defined.

Lemma restart_changes_nothing_witness :
  reachable example_hash example_check run_db2 ∧ startup run_db2 = run_db2.
Proof.
  split; [exact run_db2_reachable|].
  exact (proj2 (restart_changes_nothing example_hash example_check run_db2
                  run_db2_reachable)).
Defined.

Lemma reachable_assessments_complete_witness :
  let a := mkAssessment 1 1 "Acme Review" None None 1000 in
  a ∈ assessments run_db2
  ∧ ∃ m, body (fst (serve (assessment_view example_get 1) run_db2))
         = Render (assessment_view_html a m)
         ∧ size m = 6%nat.
Proof.
  intros a.
  assert (a ∈ assessments run_db2) as Hin by (vm_compute; left).
  split; [exact Hin|].
  destruct (reachable_assessments_complete example_hash example_check run_db2 a example_get
              run_db2_reachable Hin (run_db2_authenticated _ _ _ _))
    as (_ & _ & m & Hview & Hsize & _).
  exists m. split; [exact (f_equal (λ x, body (fst x)) Hview)|].
  rewrite Hsize. vm_compute. reflexivity.
Defined.

Lemma reachable_templates_named_witness :
  reachable example_hash example_check run_db2 ∧ NoDup (u_id <$> users run_db2).
Proof.
  split; [exact run_db2_reachable|].
  exact (proj1 (proj2 (reachable_templates_named example_hash example_check run_db2
                         run_db2_reachable))).
Defined.

Lemma register_twice_witness :
  let again := mkRequest POST [("username", "alice"); ("password", "other")] None 0 "pepper" in
  let first := serve (register example_hash run_register) (startup empty_db) in
  let second := serve (register example_hash again) (snd first) in
  (∀ s p, example_check (example_hash s p) p = true)
  ∧ fst first
    = flash "User created successfully. Please login." "success" (redirect ep_login)
  ∧ second = (flash "Username already exists" "danger" (redirect ep_register), snd first)
  ∧ fst (serve (login example_check run_login) (snd second))
    = mkResponse [] (LoggedIn (next_id u_id (users (startup empty_db)))) (Redirect ep_main).
Proof.
  intros again first second. split; [exact example_check_generated|].
  exact (register_twice example_hash example_check example_check_generated
           (startup empty_db) run_register again run_login "alice" "pw1" "other"
           eq_refl eq_refl eq_refl eq_refl eq_refl eq_refl eq_refl eq_refl eq_refl eq_refl).
Defined.

(** ** The list of templates *)

Lemma reverse_ascending_sorted {A} (key : A → N) (rows : list A) :
  ascending key rows → StronglySorted (desc key) (reverse rows).
Proof.
  unfold ascending. induction rows as [|x rows IH]; intros Hs; [constructor|].
  rewrite fmap_cons in Hs. apply StronglySorted_inv in Hs as [Hs Hall].
  rewrite reverse_cons. apply StronglySorted_app_2; [|auto|repeat constructor].
  intros y z Hy ->%list_elem_of_singleton. rewrite elem_of_reverse in Hy.
  rewrite Forall_forall in Hall. unfold desc.
  assert (key x < key y) by (apply Hall, list_elem_of_fmap; eauto). lia.
Qed.

Lemma ascending_key_inj {A} (key : A → N) (rows : list A) x y :
  ascending key rows → x ∈ rows → y ∈ rows → key x = key y → x = y.
Proof.
  intros Hs Hx Hy Hk. pose proof (get_ascending key rows x Hs Hx) as Gx.
  pose proof (get_ascending key rows y Hs Hy) as Gy. congruence.
Qed.

Lemma order_by_desc_ascending {A} (key : A → N) (rows : list A) :
  ascending key rows → order_by_desc key rows = reverse rows.
Proof.
  intros Hs. apply (StronglySorted_unique_strong (desc key)).
  - intros x y Hx Hy Hxy Hyx. unfold desc in *.
    apply (ascending_key_inj key rows); [done| | |lia].
    + by rewrite <- (order_by_desc_perm key rows).
    + by apply elem_of_reverse.
  - apply order_by_desc_sorted.
  - by apply reverse_ascending_sorted.
  - by rewrite order_by_desc_perm, reverse_Permutation.
Qed.

Lemma serve_templates_list d req :
  wf d →
  authenticated d req →
  serve (templates_list req) d
  = (render_template (templates_list_html (reverse (templates d))), d).
Proof.
  intros Hwf Hauth. unfold templates_list. enter.
  rewrite order_by_desc_ascending by apply Hwf. done.
Qed.

(** X10.  The list of templates shows every stored template once, the row
    stored last first: in a well-formed database it is the template table
    read backwards. *)
Theorem templates_list_newest_first d req :
  wf d →
  authenticated d req →
  serve (templates_list req) d
  = (render_template (templates_list_html (reverse (templates d))), d).
Proof. apply serve_templates_list. Qed.

Lemma templates_list_newest_first_witness :
  wf seeded_db
  ∧ ∃ l, serve (templates_list example_get) seeded_db
         = (render_template (templates_list_html l), seeded_db)
         ∧ t_name <$> l
           = ["Data Protection Impact Assessment (DPIA)";
              "Third-Party Due Diligence Assessment"].
Proof.
  assert (wf seeded_db) as Hwf by apply wf_set_users, wf_startup, wf_empty.
  assert (authenticated seeded_db example_get) as Hauth.
  { exists 1. split; [reflexivity|]. eexists. vm_compute. reflexivity. }
  split; [exact Hwf|]. eexists. split.
  - exact (templates_list_newest_first seeded_db example_get Hwf Hauth).
  - vm_compute. reflexivity.
Defined.

(** ** Creating a template *)

Lemma serve_template_new_blank d req :
  authenticated d req →
  method req = POST →
  truthy (form_get (form req) "name") = false
  ∨ truthy (form_get (form req) "template_type") = false →
  serve (template_new req) d
  = (flash "Name and type are required." "danger" (redirect ep_template_new), d).
Proof.
  intros Hauth Hm Hblank. unfold template_new. enter. rewrite Hm.
  destruct Hblank as [-> | ->]; run; [done|].
  by destruct (truthy (form_get (form req) "name")).
Qed.

Lemma serve_template_new_post d req n ty :
  authenticated d req →
  method req = POST →
  form_get (form req) "name" = Some n → n ≠ "" →
  form_get (form req) "template_type" = Some ty → ty ≠ "" →
  serve (template_new req) d
  = (flash "Template created." "success"
           (redirect (ep_template_edit (next_id t_id (templates d)))),
     set_templates
       (templates d
        ++ [mkTemplate (next_id t_id (templates d)) n ty (form_get (form req) "description")])
       d).
Proof.
  intros Hauth Hm Hn Hne Hty Htye. unfold template_new. enter. rewrite Hm, Hn, Hty.
  assert (truthy (Some n) = true) as -> by (cbn; by destruct (String.eqb_spec n "")).
  assert (truthy (Some ty) = true) as -> by (cbn; by destruct (String.eqb_spec ty "")).
  unfold add_template. run. done.
Qed.

(** X11.  [template_new] refuses a submission whose name or type is blank
    with a notice and stores nothing.  Given both, it stores a template
    under a fresh id; the new template has no questions, heads the list of
    templates, and its page shows it with an empty question list. *)
Theorem template_new_creates d req view_req :
  wf d →
  authenticated d req →
  method req = POST →
  method view_req = GET →
  session_user_id view_req = session_user_id req →
  (truthy (form_get (form req) "name") = false
   ∨ truthy (form_get (form req) "template_type") = false →
   serve (template_new req) d
   = (flash "Name and type are required." "danger" (redirect ep_template_new), d))
  ∧ ∀ n ty,
      form_get (form req) "name" = Some n → n ≠ "" →
      form_get (form req) "template_type" = Some ty → ty ≠ "" →
      let t := mkTemplate (next_id t_id (templates d)) n ty
                          (form_get (form req) "description") in
      let r := serve (template_new req) d in
      fst r = flash "Template created." "success" (redirect (ep_template_edit (t_id t)))
      ∧ templates (snd r) = templates d ++ [t]
      ∧ get t_id (templates d) (t_id t) = None
      ∧ serve (templates_list view_req) (snd r)
        = (render_template (templates_list_html (t :: reverse (templates d))), snd r)
      ∧ serve (template_edit view_req (t_id t)) (snd r)
        = (render_template (template_edit_html (Some t) (Some [])), snd r).
Proof.
  intros Hwf Hauth Hm Hvm Hsess. split; [by apply serve_template_new_blank|].
  intros n ty Hn Hne Hty Htye t r. subst r.
  rewrite (serve_template_new_post d req n ty) by done. cbn [fst snd]. fold t.
  assert (authenticated (set_templates (templates d ++ [t]) d) view_req) as Hauth'.
  { destruct Hauth as (i & Hi & Hu). exists i. by rewrite Hsess. }
  assert (wf (set_templates (templates d ++ [t]) d)) as Hwf' by by apply wf_add_template.
  split; [done|]. split; [done|]. split; [apply get_next_id|]. split.
  - rewrite serve_templates_list by done. cbn [templates set_templates].
    by rewrite reverse_app.
  - rewrite (serve_template_edit_get _ view_req _ t); [|done|done|].
    + do 4 f_equal. unfold questions_of. cbn [questions set_templates].
      apply filter_none. intros q Hq Hown.
      destruct (wf_question_owner d Hwf q Hq) as [o Ho].
      rewrite Hown in Ho. cbn [t_id t] in Ho. by rewrite get_next_id in Ho.
    + cbn [templates set_templates]. by apply get_snoc_fresh.
Qed.

Lemma template_new_creates_witness :
  let req := mkRequest POST [("name", "Vendor Check"); ("template_type", "Due Diligence")]
                       (Some 1) 0 "" in
  wf example_db
  ∧ ∃ t, templates (snd (serve (template_new req) example_db)) = templates example_db ++ [t]
         ∧ t_id t = 2 ∧ t_name t = "Vendor Check" ∧ t_description t = None.
Proof.
  intros req. split; [exact wf_example_db|].
  destruct (proj2 (template_new_creates example_db req example_get wf_example_db
                     (example_authenticated _ _ _ _) eq_refl eq_refl eq_refl)
              "Vendor Check" "Due Diligence" eq_refl ltac:(discriminate)
              eq_refl ltac:(discriminate)) as (_ & Hts & _).
  eexists. split; [exact Hts|]. by split.
Defined.

(** ** The assessment page *)

Lemma answers_by_question_from_sound (l : list Answer) (m : gmap N Answer) q ans :
  foldl (λ m ans, <[ans_question_id ans := ans]> m) m l !! q = Some ans →
  (ans ∈ l ∧ ans_question_id ans = q) ∨ m !! q = Some ans.
Proof.
  revert m. induction l as [|x l IH]; intros m; cbn; [auto|].
  intros [[Hin Hq]|Hm]%IH.
  - left. split; [by right|done].
  - destruct (decide (ans_question_id x = q)) as [Heq|Hne].
    + rewrite Heq, lookup_insert_eq in Hm. injection Hm as ->. left. split; [left|done].
    + rewrite lookup_insert_ne in Hm by done. by right.
Qed.

(** X12.  For an id no assessment has, the assessment page is the not-found
    page when the id fits the id column and the server-error page when it
    does not.  The dictionary shown for a stored assessment holds answers of
    that assessment only, each under its own question id, and has an entry
    for the question of every answer of the assessment. *)
Theorem assessment_view_shows_own_answers d req k :
  authenticated d req →
  (get a_id (assessments d) k = None → k ≤ sqlite_max →
   serve (assessment_view req k) d = (mkResponse [] Unchanged NotFoundPage, d))
  ∧ (get a_id (assessments d) k = None → sqlite_max < k →
     serve (assessment_view req k) d = (mkResponse [] Unchanged InternalServerError, d))
  ∧ ∀ a, get a_id (assessments d) k = Some a →
      ∃ m, serve (assessment_view req k) d
           = (render_template (assessment_view_html a m), d)
           ∧ (∀ q ans, m !! q = Some ans →
                ans ∈ answers d ∧ ans_assessment_id ans = k ∧ ans_question_id ans = q)
           ∧ (∀ ans, ans ∈ answers d → ans_assessment_id ans = k →
                is_Some (m !! ans_question_id ans)).
Proof.
  intros Hauth. split; [|split].
  - intros Ha Hk. by rewrite serve_assessment_view_404, missing_in_range.
  - intros Ha Hk. by rewrite serve_assessment_view_404, missing_overflow.
  - intros a Ha. exists (answers_by_question (answers_of d k)).
    split; [by apply serve_assessment_view|]. split.
    + intros q ans [[Hin Hq]|Hm]%answers_by_question_from_sound.
      * apply list_elem_of_filter in Hin as [Hk Hin]. done.
      * by rewrite lookup_empty in Hm.
    + intros ans Hin Hk. apply elem_of_dom. unfold answers_by_question.
      rewrite answers_by_question_from_dom. apply elem_of_union_l, elem_of_list_to_set.
      apply list_elem_of_fmap. exists ans. split; [done|].
      by apply list_elem_of_filter.
Qed.

Lemma assessment_view_shows_own_answers_witness :
  let a := mkAssessment 1 1 "Acme Review" None None 1000 in
  let first := mkAnswer 1 1 1 (Some "Acme Ltd") in
  authenticated run_db2 example_get
  ∧ serve (assessment_view example_get 5) run_db2
    = (mkResponse [] Unchanged NotFoundPage, run_db2)
  ∧ serve (assessment_view example_get 9223372036854775808) run_db2
    = (mkResponse [] Unchanged InternalServerError, run_db2)
  ∧ ∃ m, serve (assessment_view example_get 1) run_db2
         = (render_template (assessment_view_html a m), run_db2)
         ∧ is_Some (m !! 1)
         ∧ ∀ ans, m !! 1 = Some ans → ans_assessment_id ans = 1 ∧ ans_question_id ans = 1.
Proof.
  intros a first.
  pose proof (assessment_view_shows_own_answers run_db2 example_get 5
                (run_db2_authenticated _ _ _ _)) as (Hmiss & _ & _).
  pose proof (assessment_view_shows_own_answers run_db2 example_get 9223372036854775808
                (run_db2_authenticated _ _ _ _)) as (_ & Hover & _).
  pose proof (assessment_view_shows_own_answers run_db2 example_get 1
                (run_db2_authenticated _ _ _ _)) as (_ & _ & Hshown).
  assert (get a_id (assessments run_db2) 5 = None) as H5 by (vm_compute; reflexivity).
  assert (get a_id (assessments run_db2) 9223372036854775808 = None) as Hbig
    by (vm_compute; reflexivity).
  assert (get a_id (assessments run_db2) 1 = Some a) as H1 by (vm_compute; reflexivity).
  assert (5 ≤ sqlite_max) as Hin by (vm_compute; discriminate).
  assert (sqlite_max < 9223372036854775808) as Hout by (vm_compute; reflexivity).
  assert (first ∈ answers run_db2) as Hfirst by (vm_compute; left).
  split; [apply run_db2_authenticated|].
  split; [exact (Hmiss H5 Hin)|]. split; [exact (Hover Hbig Hout)|].
  destruct (Hshown a H1) as (m & Hview & Hsound & Hcomplete).
  exists m. split; [exact Hview|]. split.
  - exact (Hcomplete first Hfirst eq_refl).
  - intros ans Hans. destruct (Hsound 1 ans Hans) as (_ & ? & ?). by split.
Defined.

(** ** Questions after a delete or an edit *)

Lemma get_filter_other (l : list Question) k k' :
  k' ≠ k → get q_id (filter (λ q, q_id q ≠ k) l) k' = get q_id l k'.
Proof.
  intros Hne. unfold get. induction l as [|x l IH]; [done|].
  rewrite filter_cons. cbn. case_decide as Hx.
  - cbn. destruct (q_id x =? k'); [done|auto].
  - destruct (N.eqb_spec (q_id x) k'); [congruence|auto].
Qed.

Lemma serve_question_edit_get d req t k tpl q :
  authenticated d req →
  method req = GET →
  get t_id (templates d) t = Some tpl →
  get q_id (questions d) k = Some q →
  serve (question_edit req t k) d = (render_template (question_edit_html tpl q), d).
Proof.
  intros Hauth Hm Ht Hq. unfold question_edit. enter.
  rewrite Ht; run. by rewrite Hq, Hm.
Qed.

(** X13.  A deleted question is gone for good.  Deleting it again, under
    any template id, gives the not-found page; editing it gives the
    not-found page under every template id that names a stored template or
    fits the id column, and the server-error page under one that does
    neither.  None of these changes anything, and every other question is
    still found as it was.  The id of the question fits the id column. *)
Theorem question_delete_is_final d req t t' k :
  authenticated d req →
  is_Some (get q_id (questions d) k) →
  k ≤ sqlite_max →
  let d' := snd (serve (question_delete req t k) d) in
  serve (question_delete req t' k) d' = (mkResponse [] Unchanged NotFoundPage, d')
  ∧ (is_Some (get t_id (templates d) t') ∨ t' ≤ sqlite_max →
     serve (question_edit req t' k) d' = (mkResponse [] Unchanged NotFoundPage, d'))
  ∧ (get t_id (templates d) t' = None → sqlite_max < t' →
     serve (question_edit req t' k) d' = (mkResponse [] Unchanged InternalServerError, d'))
  ∧ ∀ k', k' ≠ k → get q_id (questions d') k' = get q_id (questions d) k'.
Proof.
  intros Hauth [q Hq] Hk d'. subst d'.
  rewrite (serve_question_delete d req t k q) by done. cbn [snd].
  set (d' := set_questions (filter (λ q, q_id q ≠ k) (questions d)) d).
  assert (get q_id (questions d') k = None) as Hgone by apply get_filter_ne.
  assert (authenticated d' req) as Hauth' by done.
  split; [by rewrite serve_question_delete_404, missing_in_range|].
  split; [|split].
  - intros Ht. destruct (get t_id (templates d) t') as [tpl|] eqn:Htpl.
    + by rewrite (serve_question_edit_404 d' req t' k tpl), missing_in_range.
    + destruct Ht as [[? ?]|Ht]; [done|].
      by rewrite serve_question_edit_no_template, missing_in_range.
  - intros Ht Hbig. by rewrite serve_question_edit_no_template, missing_overflow.
  - intros k' Hne. by apply get_filter_other.
Qed.

Lemma question_delete_is_final_witness :
  let d' := snd (serve (question_delete example_post 1 1) example_db) in
  authenticated example_db example_post
  ∧ serve (question_delete example_post 1 1) d' = (mkResponse [] Unchanged NotFoundPage, d')
  ∧ serve (question_edit example_post 9223372036854775808 1) d'
    = (mkResponse [] Unchanged InternalServerError, d')
  ∧ q_text <$> get q_id (questions d') 2 = Some "Is the vendor certified?".
Proof.
  intros d'.
  assert (1 ≤ sqlite_max) as Hin by (vm_compute; discriminate).
  assert (sqlite_max < 9223372036854775808) as Hout by (vm_compute; reflexivity).
  destruct (question_delete_is_final example_db example_post 1 1 1
              (example_authenticated _ _ _ _) (mk_is_Some _ _ eq_refl) Hin)
    as (Hagain & _ & _ & Hother).
  destruct (question_delete_is_final example_db example_post 1 9223372036854775808 1
              (example_authenticated _ _ _ _) (mk_is_Some _ _ eq_refl) Hin)
    as (_ & _ & Hover & _).
  split; [apply example_authenticated|]. split; [exact Hagain|].
  split; [exact (Hover eq_refl Hout)|].
  assert (2 ≠ 1) as Hne by discriminate.
  exact (f_equal (fmap q_text) (Hother 2 Hne)).
Defined.

(** X14.  What an edit stores is what the edit page shows next, and the
    edit moves no question: the ids of the question table are in the order
    they were. *)
Theorem question_edit_then_shown d req view_req t k tpl q x :
  authenticated d req →
  method req = POST →
  method view_req = GET →
  session_user_id view_req = session_user_id req →
  get t_id (templates d) t = Some tpl →
  get q_id (questions d) k = Some q →
  form_get (form req) "text" = Some x →
  let d' := snd (serve (question_edit req t k) d) in
  serve (question_edit view_req t k) d'
  = (render_template
       (question_edit_html tpl (edited q x (form_get (form req) "help_text")
                                        (form_get (form req) "question_type"))), d')
  ∧ q_id <$> questions d' = q_id <$> questions d
  ∧ q_template_id <$> questions d' = q_template_id <$> questions d.
Proof.
  intros Hauth Hm Hvm Hsess Ht Hq Hx d'. subst d'.
  rewrite (serve_question_edit_post d req t k tpl q x) by done. cbn [snd].
  split; [|split].
  - apply serve_question_edit_get; [|done|done|by apply get_edited].
    destruct Hauth as (i & Hi & Hu). exists i. by rewrite Hsess.
  - cbn. rewrite <- list_fmap_compose. apply list_fmap_ext.
    intros i y _. cbn. by destruct (q_id y =? k).
  - cbn. rewrite <- list_fmap_compose. apply list_fmap_ext.
    intros i y _. cbn. by destruct (q_id y =? k).
Qed.

Lemma question_edit_then_shown_witness :
  let req := mkRequest POST [("text", "Where is the data?"); ("help_text", "Country")]
                       (Some 1) 0 "" in
  let d' := snd (serve (question_edit req 1 2) example_db) in
  authenticated example_db req
  ∧ ∃ tpl q, serve (question_edit example_get 1 2) d'
             = (render_template (question_edit_html tpl q), d')
             ∧ q_text q = "Where is the data?"
             ∧ q_help_text q = Some "Country"
             ∧ q_question_type q = None.
Proof.
  intros req d'. split; [apply example_authenticated|].
  eexists _, _. split.
  - exact (proj1 (question_edit_then_shown example_db req example_get 1 2 _ _ _
                    (example_authenticated _ _ _ _) eq_refl eq_refl eq_refl
                    eq_refl eq_refl eq_refl)).
  - by repeat split.
Defined.

(** ** Stored assessments are frozen *)

Lemma serve_assessment_view_same d d' req k :
  users d `prefix_of` users d' →
  authenticated d req →
  get a_id (assessments d') k = get a_id (assessments d) k →
  answers_of d' k = answers_of d k →
  is_Some (get a_id (assessments d) k) →
  fst (serve (assessment_view req k) d') = fst (serve (assessment_view req k) d).
Proof.
  intros [us Hus] Hauth Hget Hans [a Ha].
  rewrite (serve_assessment_view d req k a) by done.
  rewrite (serve_assessment_view d' req k a); [by rewrite Hans| |by rewrite Hget].
  destruct Hauth as (i & Hi & u & Hu). exists i. split; [done|].
  exists u. rewrite Hus. by apply get_app_Some.
Qed.

Section Frozen.
Variable generate_password_hash : string → string → string.
Variable check_password_hash : string → string → bool.

(** X15.  No request changes the page of an assessment that is already
    stored: whatever is registered, added, edited, deleted or filed next,
    the page shows the same assessment with the same answers. *)
Theorem stored_assessment_page_is_frozen r req d view_req k :
  authenticated d view_req →
  is_Some (get a_id (assessments d) k) →
  let d' := snd (serve (dispatch generate_password_hash check_password_hash r req) d) in
  fst (serve (assessment_view view_req k) d') = fst (serve (assessment_view view_req k) d).
Proof.
  intros Hauth Hk d'. subst d'.
  destruct (serve_change generate_password_hash check_password_hash r req d);
    try (apply serve_assessment_view_same; cbn; try done; by apply prefix_app_r).
  apply serve_assessment_view_same; try done.
  - cbn. destruct Hk as [a Ha]. rewrite Ha. by apply get_app_Some.
  - apply answers_of_old_with_assessment. intros ->.
    rewrite get_next_id in Hk. by destruct Hk.
Qed.
End Frozen.

Lemma stored_assessment_page_is_frozen_witness :
  let d' := snd (serve (dispatch example_hash example_check (r_question_delete 1 1) run_assess)
                       run_db2) in
  authenticated run_db2 example_get
  ∧ get q_id (questions d') 1 = None
  ∧ fst (serve (assessment_view example_get 1) d')
    = fst (serve (assessment_view example_get 1) run_db2).
Proof.
  intros d'. split; [apply run_db2_authenticated|].
  split; [vm_compute; reflexivity|].
  apply (stored_assessment_page_is_frozen example_hash example_check
           (r_question_delete 1 1) run_assess run_db2 example_get 1
           (run_db2_authenticated _ _ _ _)).
  eexists. vm_compute. reflexivity.
Defined.
